(** * AI-Persona-Chatbot: prompt composition, memory recall and persona learning

    A shallow embedding of the decision logic of
    - [persona_enhancer.py]  (tone / emoji classification, prompt enhancement,
      feedback advice),
    - [memory_learning.py]   (memory context, conversation analysis, profile
      mutation),
    - [app.py]               ([generate_system_prompt]),
    together with the properties the specification states about them.

    Modelling conventions.
    - A Python [str] is modelled by its UTF-8 encoding, a [string] of bytes;
      a character of the Python text is a leading byte with the continuation
      bytes that follow it.  Counting and slicing ([len], [s[:n]]) and the
      stripping of white space work on characters in that sense; substring
      tests, [split], [join] and [strip(chars)] with ASCII [chars] agree on
      bytes and on characters.  Case mapping ([str.lower]) is the ASCII one,
      other characters are left as they are.
    - A persona profile is a Python [dict] from field names to strings: a
      [gmap string string].  A missing key and a key bound to [""] are
      different maps.
    - Heterogeneous dicts (a message, a conversation row, the learning
      analysis) are records; a key that may be missing is an [option] field.
    - Exceptions are values of [exn]; code inside [try] lives in [result] or
      in the monad [M], which also logs every call of the completion client. *)

From Stdlib Require Import Ascii QArith.
From stdpp Require Import gmap strings list fin_maps pretty.

(** ** Python string primitives *)

Module Py.

(** The double quote and the line feed, for building literals. *)
Definition dq : string := String "034"%char "".
Definition nl : string := String "010"%char "".

(** A text between double quotes. *)
Definition quoted (s : string) : string := dq +:+ s +:+ dq.

(** The number of bytes of the encoded text. *)
Definition len (s : string) : nat := String.length s.

(** A continuation byte of a multi-byte character: [10xxxxxx]. *)
Definition is_continuation (c : ascii) : bool :=
  let n := nat_of_ascii c in (128 <=? n)%nat && (n <? 192)%nat.

(** [len(s)]: the number of characters, that is of bytes that are not
    continuation bytes. *)
Fixpoint chars (s : string) : nat :=
  match s with
  | "" => 0
  | String c r => if is_continuation c then chars r else S (chars r)
  end.

(** [bool(s)]: a string is truthy when it is not empty. *)
Definition truthy (s : string) : bool :=
  match s with "" => false | String _ _ => true end.

(** [c.lower()] on one character (ASCII letters only). *)
Definition lower_char (c : ascii) : ascii :=
  let n := nat_of_ascii c in
  if (65 <=? n)%nat && (n <=? 90)%nat then ascii_of_nat (n + 32) else c.

(** [s.lower()] *)
Fixpoint lower (s : string) : string :=
  match s with
  | "" => ""
  | String c r => String (lower_char c) (lower r)
  end.

(** [t.startswith(p)] *)
Fixpoint startswith (p t : string) : bool :=
  match p, t with
  | "", _ => true
  | String _ _, "" => false
  | String a p', String b t' => if decide (a = b) then startswith p' t' else false
  end.

(** [p in t]: [p] occurs in [t] as a contiguous substring. *)
Fixpoint contains (p t : string) : bool :=
  startswith p t ||
  match t with
  | "" => false
  | String _ t' => contains p t'
  end.

(** [c in chars] for one character. *)
Fixpoint mem_char (c : ascii) (chars : string) : bool :=
  match chars with
  | "" => false
  | String d r => if decide (c = d) then true else mem_char c r
  end.

(** [s.lstrip(chars)] *)
Fixpoint lstrip (chars s : string) : string :=
  match s with
  | "" => ""
  | String c r => if mem_char c chars then lstrip chars r else s
  end.

(** [s.rstrip(chars)] *)
Fixpoint rstrip (chars s : string) : string :=
  match s with
  | "" => ""
  | String c r =>
      match rstrip chars r with
      | "" => if mem_char c chars then "" else String c ""
      | r' => String c r'
      end
  end.

(** [s.strip(chars)] *)
Definition strip (chars s : string) : string := rstrip chars (lstrip chars s).

(** The text made of the given bytes. *)
Definition of_bytes (bs : list nat) : string :=
  fold_right (fun n s => String (ascii_of_nat n) s) "" bs.

(** The other characters for which [str.isspace] holds, each in its UTF-8
    encoding: U+0085, U+00A0, U+1680, U+2000 to U+200A, U+2028, U+2029,
    U+202F, U+205F and U+3000. *)
Definition unicode_whitespace : list string :=
  [of_bytes [194; 133]; of_bytes [194; 160]; of_bytes [225; 154; 128]]
  ++ map (fun n => of_bytes [226; 128; n]) (seq 128 11)
  ++ [of_bytes [226; 128; 168]; of_bytes [226; 128; 169];
      of_bytes [226; 128; 175]; of_bytes [226; 129; 159];
      of_bytes [227; 128; 128]].

(** Every white-space character, as an encoded text. *)
Definition whitespace_tokens : list string :=
  map (fun n => of_bytes [n]) [9; 10; 11; 12; 13; 28; 29; 30; 31; 32]
  ++ unicode_whitespace.

(** Dropping the leading characters that are among [tokens] (non-empty
    encoded characters).  [skip] counts the bytes of a matched character
    still to be passed over. *)
Fixpoint lstrip_tokens_go (tokens : list string) (skip : nat) (s : string) : string :=
  match s with
  | "" => ""
  | String c r =>
      match skip with
      | S k => lstrip_tokens_go tokens k r
      | O =>
          match find (fun t => startswith t s) tokens with
          | Some t => lstrip_tokens_go tokens (len t - 1) r
          | None => s
          end
      end
  end.

Definition lstrip_tokens (tokens : list string) (s : string) : string :=
  lstrip_tokens_go tokens 0 s.

(** The same at the end of the text, on the reversed bytes. *)
Definition rstrip_tokens (tokens : list string) (s : string) : string :=
  String.rev (lstrip_tokens (map String.rev tokens) (String.rev s)).

(** [s.strip()]: leading and trailing white-space characters removed. *)
Definition strip_ws (s : string) : string :=
  rstrip_tokens whitespace_tokens (lstrip_tokens whitespace_tokens s).

(** [s[:n]]: the first [n] characters, each with its continuation bytes. *)
Fixpoint take (n : nat) (s : string) : string :=
  match s with
  | "" => ""
  | String c r =>
      if is_continuation c then String c (take n r)
      else match n with
           | O => ""
           | S k => String c (take k r)
           end
  end.

(** [s[n:]] for a text whose first [n] characters are ASCII, as where the
    code slices after a [startswith] test: the first [n] bytes removed. *)
Fixpoint drop (n : nat) (s : string) : string :=
  match n, s with
  | O, _ => s
  | _, "" => ""
  | S k, String _ r => drop k r
  end.

(** [s.split(sep)] for a non-empty separator: a left-to-right scan for
    non-overlapping occurrences.  [skip] counts the characters of a matched
    separator still to be passed over, [cur] is the piece being built. *)
Fixpoint split_go (sep : string) (skip : nat) (cur t : string) : list string :=
  match t with
  | "" => [cur]
  | String c t' =>
      match skip with
      | S k => split_go sep k cur t'
      | O =>
          if startswith sep t
          then cur :: split_go sep (len sep - 1) "" t'
          else split_go sep 0 (cur +:+ String c "") t'
      end
  end.

Definition split (sep t : string) : list string := split_go sep 0 "" t.

(** [sep.join(parts)] *)
Fixpoint join (sep : string) (parts : list string) : string :=
  match parts with
  | [] => ""
  | [x] => x
  | x :: rest => x +:+ sep +:+ join sep rest
  end.

(** [xs[:n]] and [xs[-n:]] on lists. *)
Definition list_first {A} (n : nat) (xs : list A) : list A := firstn n xs.
Definition list_last {A} (n : nat) (xs : list A) : list A :=
  skipn (length xs - n) xs.

End Py.

(** ** Exceptions *)

Inductive exn : Type :=
| JSONDecodeError (msg : string)
| IndexError (msg : string)
| OtherError (msg : string).

(** [str(e)] *)
Definition exn_str (e : exn) : string :=
  match e with
  | JSONDecodeError m | IndexError m | OtherError m => m
  end.

Inductive result (A : Type) : Type :=
| Ok (a : A)
| Raise (e : exn).
Arguments Ok {A} a.
Arguments Raise {A} e.

Definition rbind {A B} (r : result A) (k : A -> result B) : result B :=
  match r with
  | Ok a => k a
  | Raise e => Raise e
  end.

(** ** Data model *)

(** A persona profile: the dict built by the character form, with the keys
    [name], [personality], [behaviors], [speaking_style], [mannerisms] and
    [background] when they are set. *)
Abbreviation profile := (gmap string string).

(** [d.get(k, dflt)] *)
Definition dict_get (d : profile) (k dflt : string) : string :=
  default dflt (d !! k).

(** The payload under the key ['analysis']: the JSON object the model was
    asked for, or the raw-text fallback. *)
Record analysis_dict : Type := {
  common_topics : option (list string);
  successful_patterns : option (list string);
  suggested_personality_additions : option string;
  suggested_behavior_additions : option string;
  speaking_style_refinements : option string;
  raw_response : option string
}.

(** The dict returned by [analyze_conversation_patterns]. *)
Record learning_analysis : Type := {
  success : bool;
  message : option string;
  analysis : option analysis_dict
}.

(** ** memory_learning.py: [apply_learning_to_persona] *)

(** One of the three blocks of the function: ['k' in analysis and
    analysis['k']] is [Some] of a truthy string; the field is rewritten when
    the suggestion is not yet a substring of its current value. *)
Definition add_learned (key : string) (suggestion : option string)
    (enhanced_profile : profile) : profile :=
  match suggestion with
  | Some new_traits =>
      if Py.truthy new_traits then
        let current := dict_get enhanced_profile key "" in
        if Py.truthy new_traits && negb (Py.contains new_traits current)
        then <[key := Py.strip ", " (current +:+ ", " +:+ new_traits)]> enhanced_profile
        else enhanced_profile
      else enhanced_profile
  | None => enhanced_profile
  end.

Definition apply_learning_to_persona (character_profile : profile)
    (la : learning_analysis) : profile :=
  let enhanced_profile := character_profile in
  match analysis la with
  | None => enhanced_profile
  | Some a =>
      let enhanced_profile :=
        add_learned "personality" (suggested_personality_additions a) enhanced_profile in
      let enhanced_profile :=
        add_learned "behaviors" (suggested_behavior_additions a) enhanced_profile in
      let enhanced_profile :=
        add_learned "speaking_style" (speaking_style_refinements a) enhanced_profile in
      enhanced_profile
  end.

(** *** The same function on a store of dict objects

    [character_profile.copy()] allocates a new dict; the three blocks then
    assign into that new object.  The store maps references to dicts; a
    reference that is not allocated makes the operation fail with [None]. *)

Abbreviation ref := positive.
Abbreviation store := (gmap positive (gmap string string)).

Definition St (A : Type) : Type := store -> option (A * store).

#[global] Instance St_ret : MRet St := fun A a h => Some (a, h).
#[global] Instance St_bind : MBind St := fun A B k m h =>
  match m h with
  | Some (a, h') => k a h'
  | None => None
  end.

(** [d.copy()] *)
Definition obj_copy (r : ref) : St ref :=
  fun h => match h !! r with
           | Some d => let r' := fresh (dom h) in Some (r', <[r' := d]> h)
           | None => None
           end.

(** [d.get(k, dflt)] *)
Definition obj_get (r : ref) (k dflt : string) : St string :=
  fun h => match h !! r with
           | Some d => Some (dict_get d k dflt, h)
           | None => None
           end.

(** [d[k] = v] *)
Definition obj_set (r : ref) (k v : string) : St unit :=
  fun h => match h !! r with
           | Some d => Some (tt, <[r := <[k := v]> d]> h)
           | None => None
           end.

Definition add_learned_obj (key : string) (suggestion : option string)
    (enhanced_profile : ref) : St unit :=
  match suggestion with
  | Some new_traits =>
      if Py.truthy new_traits then
        current ← obj_get enhanced_profile key "";
        if Py.truthy new_traits && negb (Py.contains new_traits current)
        then obj_set enhanced_profile key
               (Py.strip ", " (current +:+ ", " +:+ new_traits))
        else mret tt
      else mret tt
  | None => mret tt
  end.

Definition apply_learning_to_persona_obj (character_profile : ref)
    (la : learning_analysis) : St ref :=
  enhanced_profile ← obj_copy character_profile;
  match analysis la with
  | None => mret enhanced_profile
  | Some a =>
      add_learned_obj "personality" (suggested_personality_additions a) enhanced_profile;;
      add_learned_obj "behaviors" (suggested_behavior_additions a) enhanced_profile;;
      add_learned_obj "speaking_style" (speaking_style_refinements a) enhanced_profile;;
      mret enhanced_profile
  end.

(** ** persona_enhancer.py: [analyze_tone_and_emoji_patterns] *)

(** The dict the function returns. *)
Record patterns : Type := {
  emoji_usage : string;
  emoji_examples : list string;
  tone_patterns : list string;
  speaking_patterns : list string
}.

Definition high_emoji_keywords : list string :=
  ["cheerful"; "enthusiastic"; "upbeat"; "energetic"; "bubbly"; "expressive";
   "fun"; "playful"].

Definition low_emoji_keywords : list string :=
  ["serious"; "professional"; "formal"; "reserved"; "stoic"; "academic";
   "scholarly"].

Definition high_emoji_examples : list string :=
  ["😊"; "✨"; "🎉"; "💫"; "🌟"; "❤️"; "🙌"; "👍"].

Definition moderate_emoji_examples : list string :=
  ["😊"; "👍"; "✨"].

(** [any(keyword in personality or keyword in speaking_style
         for keyword in keywords)] *)
Definition any_keyword (keywords : list string)
    (personality speaking_style : string) : bool :=
  existsb (fun keyword =>
             Py.contains keyword personality || Py.contains keyword speaking_style)
          keywords.

(** [if cond: xs.append(x)] *)
Definition append_if {A} (cond : bool) (x : A) (xs : list A) : list A :=
  if cond then xs ++ [x] else xs.

Definition analyze_tone_and_emoji_patterns (character_profile : profile) : patterns :=
  let personality := Py.lower (dict_get character_profile "personality" "") in
  let speaking_style := Py.lower (dict_get character_profile "speaking_style" "") in
  let '(emoji_usage, emoji_examples) :=
    if any_keyword high_emoji_keywords personality speaking_style
    then ("high", high_emoji_examples)
    else if any_keyword low_emoji_keywords personality speaking_style
    then ("minimal", [])
    else ("moderate", moderate_emoji_examples) in
  let tone_patterns := [] in
  let tone_patterns :=
    append_if (Py.contains "friendly" personality || Py.contains "warm" personality)
      "Use warm, welcoming language" tone_patterns in
  let tone_patterns :=
    append_if (Py.contains "professional" personality || Py.contains "formal" speaking_style)
      "Maintain professional demeanor" tone_patterns in
  let tone_patterns :=
    append_if (Py.contains "casual" speaking_style || Py.contains "relaxed" personality)
      "Keep responses conversational and relaxed" tone_patterns in
  let tone_patterns :=
    append_if (Py.contains "enthusiastic" personality || Py.contains "excited" personality)
      "Show excitement with exclamation marks" tone_patterns in
  let tone_patterns :=
    append_if (Py.contains "thoughtful" personality || Py.contains "contemplative" personality)
      "Take time to reflect before responding" tone_patterns in
  let tone_patterns :=
    append_if (Py.contains "humorous" personality || Py.contains "witty" personality
               || Py.contains "funny" personality)
      "Include appropriate humor and wit" tone_patterns in
  let speaking_patterns := [] in
  let speaking_patterns :=
    if Py.contains "short" speaking_style || Py.contains "concise" speaking_style
    then speaking_patterns ++ ["Keep responses brief and to the point"]
    else if Py.contains "detailed" speaking_style || Py.contains "elaborate" speaking_style
    then speaking_patterns ++ ["Provide detailed, comprehensive responses"]
    else speaking_patterns in
  let speaking_patterns :=
    append_if (Py.contains "questions" personality || Py.contains "curious" personality)
      "Ask follow-up questions naturally" speaking_patterns in
  let speaking_patterns :=
    append_if (Py.contains "stories" personality || Py.contains "narrative" speaking_style)
      "Share relevant anecdotes and stories" speaking_patterns in
  {| emoji_usage := emoji_usage;
     emoji_examples := emoji_examples;
     tone_patterns := tone_patterns;
     speaking_patterns := speaking_patterns |}.

(** ** persona_enhancer.py: [enhance_system_prompt_with_patterns] *)

(** ["\n".join([f"- {pattern}" for pattern in ps])] *)
Definition bullet_lines (ps : list string) : string :=
  Py.join Py.nl (map (fun pattern => "- " +:+ pattern) ps).

(** [bool(xs)] for a list. *)
Definition list_truthy {A} (xs : list A) : bool :=
  match xs with [] => false | _ :: _ => true end.

Definition enhance_system_prompt_with_patterns (base_prompt : string)
    (p : patterns) : string :=
  let enhanced_prompt := base_prompt in
  let enhanced_prompt :=
    if decide (emoji_usage p = "high") then
      enhanced_prompt +:+ Py.nl +:+ Py.nl +:+
      "Emoji Usage: Use emojis frequently to express emotions and add warmth. Examples: "
      +:+ Py.join ", " (emoji_examples p)
    else if decide (emoji_usage p = "moderate") then
      enhanced_prompt +:+ Py.nl +:+ Py.nl +:+
      "Emoji Usage: Use emojis occasionally for emphasis. Examples: "
      +:+ Py.join ", " (emoji_examples p)
    else if decide (emoji_usage p = "minimal") then
      enhanced_prompt +:+ Py.nl +:+ Py.nl +:+
      "Emoji Usage: Use emojis sparingly or not at all. Maintain a more formal tone."
    else enhanced_prompt in
  let enhanced_prompt :=
    if list_truthy (tone_patterns p) then
      enhanced_prompt +:+ Py.nl +:+ Py.nl +:+ "Tone Guidelines:" +:+ Py.nl
      +:+ bullet_lines (tone_patterns p)
    else enhanced_prompt in
  let enhanced_prompt :=
    if list_truthy (speaking_patterns p) then
      enhanced_prompt +:+ Py.nl +:+ Py.nl +:+ "Speaking Patterns:" +:+ Py.nl
      +:+ bullet_lines (speaking_patterns p)
    else enhanced_prompt in
  enhanced_prompt.

(** ** persona_enhancer.py: [apply_feedback_to_persona] *)

(** ['k' in d] *)
Definition has_key (k : string) (d : profile) : bool := bool_decide (is_Some (d !! k)).

Definition apply_feedback_to_persona (character_profile : profile)
    (feedback_type response_context : string) : list string :=
  let suggestions := [] in
  if decide (feedback_type = "positive") then
    let suggestions := suggestions ++
      ["✅ Great! The character's response style is working well in this context."] in
    let suggestions := suggestions ++
      ["Consider saving this persona if you haven't already."] in
    suggestions
  else
    let suggestions := suggestions ++ ["💡 Here are some ways to improve:"] in
    let suggestions :=
      append_if (has_key "speaking_style" character_profile)
        "- Try adjusting the speaking style for better alignment" suggestions in
    let suggestions :=
      append_if (has_key "personality" character_profile)
        "- Consider refining personality traits to better match expectations" suggestions in
    let suggestions := suggestions ++
      ["- Use the 'Refine' feature to get AI-powered suggestions"] in
    suggestions.

(** ** app.py: [generate_system_prompt] *)

(** One of the six blocks:
    [if character_profile.get(key): prompt += f"{label}: {character_profile[key]}\n\n"].
    [.get(key)] is [None] (falsy) for a missing key and falsy for [""]. *)
Definition emit_field (label key : string) (character_profile : profile)
    (prompt : string) : string :=
  match character_profile !! key with
  | Some v =>
      if Py.truthy v
      then prompt +:+ label +:+ ": " +:+ v +:+ Py.nl +:+ Py.nl
      else prompt
  | None => prompt
  end.

Definition prompt_header : string :=
  "You are roleplaying as a character with the following attributes:" +:+ Py.nl +:+ Py.nl.

Definition prompt_instructions : string :=
"
Instructions:
- Stay in character at all times
- Respond naturally as this person would
- Use the speaking style and mannerisms described
- Draw from the personality traits and behaviors when forming responses
- Be conversational and engaging
- If asked about things outside your character's knowledge, respond as that character would
".

Definition generate_system_prompt (character_profile : profile) : string :=
  let prompt := prompt_header in
  let prompt := emit_field "Name" "name" character_profile prompt in
  let prompt := emit_field "Personality Traits" "personality" character_profile prompt in
  let prompt := emit_field "Behaviors and Habits" "behaviors" character_profile prompt in
  let prompt := emit_field "Speaking Style" "speaking_style" character_profile prompt in
  let prompt := emit_field "Mannerisms and Quirks" "mannerisms" character_profile prompt in
  let prompt := emit_field "Background" "background" character_profile prompt in
  prompt +:+ prompt_instructions.

(** The composition used by [chat_with_persona]: the base prompt enhanced
    with the patterns derived from the same profile. *)
Definition compose_system_prompt (character_profile : profile) : string :=
  let system_prompt := generate_system_prompt character_profile in
  let patterns := analyze_tone_and_emoji_patterns character_profile in
  enhance_system_prompt_with_patterns system_prompt patterns.

(** ** memory_learning.py: storage rows, the completion client, effects *)

#[global] Instance result_ret : MRet result := fun A a => Ok a.
#[global] Instance result_bind : MBind result := fun A B k r => rbind r k.

(** A chat message: [{'role': ..., 'content': ...}]. *)
Record Message : Type := { role : string; content : string }.

(** The [messages] column of a conversation row: JSON text still to be
    parsed ([isinstance(conv['messages'], str)]) or an already decoded list. *)
Inductive messages_column : Type :=
| MessagesText (s : string)
| MessagesList (l : list Message).

(** A row of [conversations] as the queries return it. *)
Record conversation : Type := {
  conv_id : nat;
  messages : messages_column
}.

(** The [db_module] argument: the two queries the core uses.  Either may
    raise. *)
Record db_module : Type := {
  get_persona_conversations :
    string -> option nat -> nat -> result (list conversation);
  get_all_persona_messages :
    string -> option nat -> result (list Message)
}.

(** The [client] argument: [client.models.generate_content(model=, contents=)]
    returns a response whose [.text] may be [None], or raises. *)
Record response : Type := { text : option string }.

Record client : Type := {
  generate_content : string -> string -> result response
}.

(** One call of the completion client, as logged. *)
Record call : Type := { call_model : string; call_contents : string }.

(** Computations that may raise and that log the completion calls they
    issue; the log survives an exception. *)
Definition M (A : Type) : Type := list call -> result A * list call.

#[global] Instance M_ret : MRet M := fun A a log => (Ok a, log).
#[global] Instance M_bind : MBind M := fun A B k m log =>
  match m log with
  | (Ok a, log') => k a log'
  | (Raise e, log') => (Raise e, log')
  end.

(** A computation without client calls. *)
Definition lift {A} (r : result A) : M A := fun log => (r, log).

(** [client.models.generate_content(model=m, contents=c)] *)
Definition call_generate_content (c : client) (m contents : string) : M response :=
  fun log => (generate_content c m contents,
              log ++ [{| call_model := m; call_contents := contents |}]).

(** [try: body except Exception as e: handler(e)] *)
Definition try_except {A} (body : M A) (handler : exn -> M A) : M A :=
  fun log =>
    match body log with
    | (Ok a, log') => (Ok a, log')
    | (Raise e, log') => handler e log'
    end.

(** [xs[-k]] for [k >= 1]. *)
Definition neg_index {A} (xs : list A) (k : nat) : result A :=
  if decide (k <= length xs) then
    match xs !! (length xs - k) with
    | Some x => Ok x
    | None => Raise (IndexError "list index out of range")
    end
  else Raise (IndexError "list index out of range").

(** [xs[i]] for [i >= 0]. *)
Definition pos_index {A} (xs : list A) (i : nat) : result A :=
  match xs !! i with
  | Some x => Ok x
  | None => Raise (IndexError "list index out of range")
  end.

Section MemoryLearning.

(** [json.loads] at the two types it is used at.  A document that does not
    parse raises [JSONDecodeError]. *)
Variable json_loads_messages : string -> result (list Message).
Variable json_loads_analysis : string -> result analysis_dict.

(** *** [build_memory_context] *)

(** [f"- User mentioned: {msg['content'][:80]}..."] *)
Definition summary_point (msg : Message) : string :=
  "- User mentioned: " +:+ Py.take 80 (content msg) +:+ "...".

(** The inner loop, [for i in range(min(4, len(messages)))], over the
    remaining values of [i]. *)
Fixpoint summary_loop (messages : list Message) (range : list nat)
    (summary_points : list string) : result (list string) :=
  match range with
  | [] => Ok summary_points
  | i :: range' =>
      msg ← neg_index messages (i + 1);
      let summary_points :=
        if decide (role msg = "user")
        then summary_points ++ [summary_point msg]
        else summary_points in
      summary_loop messages range' summary_points
  end.

(** [json.loads(conv['messages']) if isinstance(conv['messages'], str)
     else conv['messages']] *)
Definition conv_messages (conv : conversation) : result (list Message) :=
  match messages conv with
  | MessagesText s => json_loads_messages s
  | MessagesList l => Ok l
  end.

(** The outer loop, [for conv in recent_conversations]. *)
Fixpoint conversations_loop (recent_conversations : list conversation)
    (memory_context : string) : result string :=
  match recent_conversations with
  | [] => Ok memory_context
  | conv :: rest =>
      messages ← conv_messages conv;
      summary_points ←
        summary_loop messages (seq 0 (Nat.min 4 (length messages))) [];
      let memory_context :=
        if list_truthy summary_points
        then memory_context +:+ Py.nl +:+ "Previous session:" +:+ Py.nl
             +:+ Py.join Py.nl (Py.list_first 2 summary_points)
        else memory_context in
      conversations_loop rest memory_context
  end.

Definition memory_header : string :=
  Py.nl +:+ Py.nl +:+ "Memory from previous conversations:" +:+ Py.nl.

Definition memory_footer : string :=
  Py.nl +:+ Py.nl +:+ "Use these memories naturally in conversation when relevant.".

(** The body of the [try]. *)
Definition build_memory_context_body (persona_name : string)
    (db : db_module) (user_id : option nat) : result string :=
  recent_conversations ← get_persona_conversations db persona_name user_id 3;
  if negb (list_truthy recent_conversations) then Ok ""
  else
    let memory_context := memory_header in
    memory_context ← conversations_loop recent_conversations memory_context;
    let memory_context := memory_context +:+ memory_footer in
    Ok memory_context.

Definition build_memory_context (persona_name : string)
    (db : db_module) (user_id : option nat) : string :=
  match build_memory_context_body persona_name db user_id with
  | Ok memory_context => memory_context
  | Raise e => ""
  end.

(** *** [analyze_conversation_patterns] *)

Definition too_few_message : string :=
  "Need at least 5 conversation exchanges (10 messages) to analyze patterns.".

Definition analysis_prompt_format : string :=
  "

Analyze:
1. What topics does the user frequently discuss?
2. What response patterns are working well?
3. What speaking patterns has the persona developed?
4. What improvements would make the persona more authentic?

Provide a JSON response with these fields:
{
    " +:+
  Py.quoted "common_topics" +:+ ": [" +:+ Py.quoted "topic1" +:+ ", " +:+
  Py.quoted "topic2" +:+ ", " +:+ Py.quoted "topic3" +:+
  "],
    " +:+ Py.quoted "successful_patterns" +:+ ": [" +:+
  Py.quoted "pattern1" +:+ ", " +:+ Py.quoted "pattern2" +:+
  "],
    " +:+ Py.quoted "suggested_personality_additions" +:+ ": " +:+
  Py.quoted "text describing additional personality traits based on conversations" +:+
  ",
    " +:+ Py.quoted "suggested_behavior_additions" +:+ ": " +:+
  Py.quoted "text describing new behaviors observed or needed" +:+
  ",
    " +:+ Py.quoted "speaking_style_refinements" +:+ ": " +:+
  Py.quoted "text describing speaking style improvements" +:+
  "
}".

Definition analysis_prompt (persona_name : string)
    (all_messages : list Message) (user_messages assistant_messages : list string)
    : string :=
  "Analyze these conversations with the persona " +:+ Py.quoted persona_name +:+
  " to identify patterns and learning opportunities.

Total exchanges: " +:+
  pretty (length all_messages / 2) +:+
  "

Sample user messages (first 5):
" +:+
  Py.join Py.nl (Py.list_first 5 user_messages) +:+
  "

Sample assistant responses (first 5):
" +:+
  Py.join Py.nl (Py.list_first 5 assistant_messages) +:+
  "

Latest user messages (last 3):
" +:+
  Py.join Py.nl (Py.list_last 3 user_messages) +:+
  "

Latest assistant responses (last 3):
" +:+
  Py.join Py.nl (Py.list_last 3 assistant_messages) +:+
  analysis_prompt_format.

(** The text clean-up before parsing: strip, then drop a leading code fence
    and a language tag [json] right after it. *)
Definition clean_response (response_text : string) : result string :=
  let text := Py.strip_ws response_text in
  if Py.startswith "```" text then
    text ← pos_index (Py.split "```" text) 1;
    if Py.startswith "json" text then Ok (Py.drop 4 text) else Ok text
  else Ok text.

(** [try: json.loads(text) ... except json.JSONDecodeError: ...]: only a
    decode error is handled here. *)
Definition parse_analysis (text : string) : result learning_analysis :=
  match json_loads_analysis text with
  | Ok analysis =>
      Ok {| success := true; message := None; analysis := Some analysis |}
  | Raise (JSONDecodeError _) =>
      Ok {| success := true; message := None;
            analysis := Some {| common_topics := None;
                                successful_patterns := None;
                                suggested_personality_additions := None;
                                suggested_behavior_additions := None;
                                speaking_style_refinements := None;
                                raw_response := Some text |} |}
  | Raise e => Raise e
  end.

Definition failure (msg : string) : learning_analysis :=
  {| success := false; message := Some msg; analysis := None |}.

(** [bool(response.text)] *)
Definition text_truthy (r : response) : bool :=
  match text r with
  | Some t => Py.truthy t
  | None => false
  end.

(** The body of the [try]. *)
Definition analyze_conversation_patterns_body (persona_name : string)
    (db : db_module) (c : client) (user_id : option nat) : M learning_analysis :=
  all_messages ← lift (get_all_persona_messages db persona_name user_id);
  if decide (length all_messages < 10) then
    mret (failure too_few_message)
  else
    let user_messages :=
      map content (filter (fun msg => role msg = "user") all_messages) in
    let assistant_messages :=
      map content (filter (fun msg => role msg = "assistant") all_messages) in
    let analysis_prompt :=
      analysis_prompt persona_name all_messages user_messages assistant_messages in
    response ← call_generate_content c "gemini-2.0-flash-exp" analysis_prompt;
    if text_truthy response then
      text ← lift (clean_response (default "" (text response)));
      lift (parse_analysis text)
    else
      mret (failure "Unable to generate analysis at this time.").

Definition analyze_conversation_patterns (persona_name : string)
    (db : db_module) (c : client) (user_id : option nat) : M learning_analysis :=
  try_except
    (analyze_conversation_patterns_body persona_name db c user_id)
    (fun e => mret (failure ("Error analyzing patterns: " +:+ exn_str e))).

End MemoryLearning.

(** ** memory_learning.py: [get_learning_summary] *)

(** The default of [learning_analysis.get('analysis', {})]. *)
Definition empty_dict : analysis_dict :=
  {| common_topics := None; successful_patterns := None;
     suggested_personality_additions := None;
     suggested_behavior_additions := None;
     speaking_style_refinements := None; raw_response := None |}.

(** [if key in analysis: items = analysis[key]
     if items: summary += f"{heading} {', '.join(items)}\n\n"] *)
Definition summary_list (heading : string) (field : option (list string))
    (summary : string) : string :=
  match field with
  | Some items =>
      if list_truthy items
      then summary +:+ heading +:+ " " +:+ Py.join ", " items +:+ Py.nl +:+ Py.nl
      else summary
  | None => summary
  end.

(** [if key in analysis: summary += f"{heading} {analysis[key]}\n\n"] *)
Definition summary_text (heading : string) (field : option string)
    (summary : string) : string :=
  match field with
  | Some v => summary +:+ heading +:+ " " +:+ v +:+ Py.nl +:+ Py.nl
  | None => summary
  end.

Definition summary_heading : string :=
  "## Learning Summary" +:+ Py.nl +:+ Py.nl.

Definition get_learning_summary (la : learning_analysis) : string :=
  if negb (success la) then default "Analysis failed" (message la)
  else
    let analysis := default empty_dict (analysis la) in
    let summary := summary_heading in
    let summary :=
      summary_list "**Common Topics:**" (common_topics analysis) summary in
    let summary :=
      summary_list "**Successful Patterns:**" (successful_patterns analysis) summary in
    let summary :=
      summary_text "**Personality Growth:**"
        (suggested_personality_additions analysis) summary in
    let summary :=
      summary_text "**Behavior Evolution:**"
        (suggested_behavior_additions analysis) summary in
    let summary :=
      summary_text "**Speaking Style Refinement:**"
        (speaking_style_refinements analysis) summary in
    let summary :=
      match raw_response analysis with
      | Some raw => summary +:+ Py.nl +:+ raw
      | None => summary
      end in
    summary.

(** ** persona_enhancer.py: [generate_persona_refinement_suggestions] *)

Definition refinement_too_short : string :=
  "Need more conversation history (at least 2 exchanges) to generate refinement suggestions.".

(** The loop [for msg in chat_history[-10:]] over the remaining messages. *)
Fixpoint conversation_text_loop (msgs : list Message)
    (conversation_text : string) : string :=
  match msgs with
  | [] => conversation_text
  | msg :: rest =>
      let role := if decide (role msg = "user") then "User" else "Character" in
      conversation_text_loop rest
        (conversation_text +:+ role +:+ ": " +:+ content msg +:+ Py.nl)
  end.

Definition refinement_prompt (character_profile : profile)
    (conversation_text : string) : string :=
  "Analyze this conversation and the current character persona to suggest improvements.

Current Persona:
- Personality: " +:+ dict_get character_profile "personality" "Not specified" +:+ "
- Behaviors: " +:+ dict_get character_profile "behaviors" "Not specified" +:+ "
- Speaking Style: " +:+ dict_get character_profile "speaking_style" "Not specified" +:+ "

Recent Conversation:
" +:+ conversation_text +:+ "

Based on this conversation, provide 3-5 specific suggestions to improve the persona for more authentic and engaging interactions. Consider:
1. Are the responses staying true to the personality?
2. Are there patterns in the conversation that could be enhanced?
3. Are there missing personality elements that would improve the character?
4. Is the speaking style consistent?

Provide concise, actionable suggestions in a numbered list.".

Definition generate_persona_refinement_suggestions (chat_history : list Message)
    (character_profile : profile) (c : client) : M string :=
  if negb (list_truthy chat_history) || bool_decide (length chat_history < 4)
  then mret refinement_too_short
  else
    let conversation_text :=
      conversation_text_loop (Py.list_last 10 chat_history) "" in
    let analysis_prompt := refinement_prompt character_profile conversation_text in
    try_except
      (response ← call_generate_content c "gemini-2.0-flash-exp" analysis_prompt;
       mret (if text_truthy response
             then default "" (text response)
             else "Unable to generate suggestions at this time."))
      (fun e => mret ("Error analyzing conversation: " +:+ exn_str e)).

(** ** app.py: [chat_with_persona] *)

(** [types.GenerateContentConfig(temperature=..., max_output_tokens=...)] *)
Record GenerateContentConfig : Type := {
  temperature : Q;
  max_output_tokens : nat
}.

(** The client as the chat uses it:
    [client.models.generate_content(model=, contents=, config=)]. *)
Record chat_client : Type := {
  generate_content_config :
    string -> string -> GenerateContentConfig -> result response
}.

(** The loop [for message in chat_history] that fills
    [conversation_parts]. *)
Fixpoint conversation_parts_loop (chat_history : list Message)
    (conversation_parts : list string) : list string :=
  match chat_history with
  | [] => conversation_parts
  | message :: rest =>
      conversation_parts_loop rest
        (if decide (role message = "user")
         then conversation_parts ++ ["User: " +:+ content message]
         else conversation_parts ++ ["Character: " +:+ content message])
  end.

(** The prompt sent for a chat turn. *)
Definition full_prompt (character_profile : profile) (user_message : string)
    (chat_history : list Message) : string :=
  let system_prompt := generate_system_prompt character_profile in
  let patterns := analyze_tone_and_emoji_patterns character_profile in
  let enhanced_prompt := enhance_system_prompt_with_patterns system_prompt patterns in
  let conversation_parts := [] in
  let conversation_parts := conversation_parts_loop chat_history conversation_parts in
  let conversation_parts := conversation_parts ++ ["User: " +:+ user_message] in
  let conversation_context := Py.join Py.nl conversation_parts in
  enhanced_prompt +:+ Py.nl +:+ Py.nl +:+ "Conversation:" +:+ Py.nl
  +:+ conversation_context +:+ Py.nl +:+ Py.nl +:+ "Character:".

(** The body of the [try]. *)
Definition chat_with_persona_body (c : chat_client) (character_profile : profile)
    (user_message : string) (chat_history : list Message) : result string :=
  let full_prompt := full_prompt character_profile user_message chat_history in
  response ← generate_content_config c "gemini-2.0-flash-exp" full_prompt
               {| temperature := 0.8; max_output_tokens := 1000 |};
  Ok (if text_truthy response
      then default "" (text response)
      else "I'm having trouble responding right now.").

Definition chat_with_persona (c : chat_client) (character_profile : profile)
    (user_message : string) (chat_history : list Message) : string :=
  match chat_with_persona_body c character_profile user_message chat_history with
  | Ok answer => answer
  | Raise e => "Error generating response: " +:+ exn_str e
  end.

(** ** Notions used to state the properties *)

(** A suggestion without a leading or trailing comma or space: the strip
    applied after appending leaves such a text whole. *)
Definition unpadded (suggestion : option string) : bool :=
  match suggestion with
  | Some s => bool_decide (Py.strip ", " s = s)
  | None => true
  end.

Definition unpadded_analysis (la : learning_analysis) : bool :=
  match analysis la with
  | Some a =>
      unpadded (suggested_personality_additions a)
      && unpadded (suggested_behavior_additions a)
      && unpadded (speaking_style_refinements a)
  | None => true
  end.

(** [w] occurs in [t]: [t] is some text, then [w], then some text. *)
Definition occurs (w t : string) : Prop := ∃ a b, t = a +:+ w +:+ b.

(** One of [keywords] occurs in the lower-cased [personality] or in the
    lower-cased [speaking_style] of the profile. *)
Definition keyword_present (keywords : list string) (P : gmap string string) : Prop :=
  ∃ k, k ∈ keywords ∧
       (occurs k (Py.lower (dict_get P "personality" ""))
        ∨ occurs k (Py.lower (dict_get P "speaking_style" ""))).

(** The profile fields of the prompt in their fixed order, each with its
    heading. *)
Definition profile_fields : list (string * string) :=
  [("name", "Name");
   ("personality", "Personality Traits");
   ("behaviors", "Behaviors and Habits");
   ("speaking_style", "Speaking Style");
   ("mannerisms", "Mannerisms and Quirks");
   ("background", "Background")].

(** A field is present when its key is bound to a non-empty text. *)
Definition field_present (P : gmap string string) (key : string) : bool :=
  match P !! key with
  | Some v => Py.truthy v
  | None => false
  end.

(** The labeled paragraph of a field. *)
Definition paragraph (P : gmap string string) (field : string * string) : string :=
  field.2 +:+ ": " +:+ dict_get P field.1 "" +:+ Py.nl +:+ Py.nl.

Fixpoint concat_strings (xs : list string) : string :=
  match xs with
  | [] => ""
  | x :: rest => x +:+ concat_strings rest
  end.

(** The paragraphs of the present fields, in the fixed order. *)
Definition labeled_paragraphs (P : gmap string string) : string :=
  concat_strings
    (map (paragraph P)
         (List.filter (fun field => field_present P field.1) profile_fields)).

(** The advice on a negative signal, as the specification words it. *)
Definition negative_advice (P : gmap string string) : list string :=
  ["💡 Here are some ways to improve:"]
  ++ (if decide (is_Some (P !! "speaking_style"))
      then ["- Try adjusting the speaking style for better alignment"] else [])
  ++ (if decide (is_Some (P !! "personality"))
      then ["- Consider refining personality traits to better match expectations"]
      else [])
  ++ ["- Use the 'Refine' feature to get AI-powered suggestions"].

(** The bullets of a session as the specification words them: of the last 4
    messages, walked from the most recent one, the user messages; of these
    the first 2. *)
Definition session_bullets (messages : list Message) : list string :=
  take 2 (map summary_point
            (filter (fun msg => role msg = "user") (take 4 (reverse messages)))).

(** The block of a session: nothing when it has no bullet, else the label
    and the bullets, one per line. *)
Definition session_block (messages : list Message) : string :=
  match session_bullets messages with
  | [] => ""
  | bullets =>
      Py.nl +:+ "Previous session:" +:+ Py.nl +:+ Py.join Py.nl bullets
  end.

(** The text before the first occurrence of [sep], all of it when [sep]
    does not occur. *)
Fixpoint until (sep t : string) : string :=
  match t with
  | "" => ""
  | String c t' => if Py.startswith sep t then "" else String c (until sep t')
  end.

(** The cleaned response text as the specification words it: surrounding
    white space stripped; when a code fence opens the text, what lies between
    it and the next fence, less a leading language tag [json]. *)
Definition cleaned_text (response_text : string) : string :=
  let text := Py.strip_ws response_text in
  if Py.startswith "```" text then
    let inner := until "```" (Py.drop 3 text) in
    if Py.startswith "json" inner then Py.drop 4 inner else inner
  else text.

(** The prompt sent for a history. *)
Definition prompt_for (persona_name : string) (all_messages : list Message) : string :=
  analysis_prompt persona_name all_messages
    (map content (filter (fun msg => role msg = "user") all_messages))
    (map content (filter (fun msg => role msg = "assistant") all_messages)).

(** The success record of the raw-text fallback. *)
Definition raw_fallback (text : string) : learning_analysis :=
  {| success := true; message := None;
     analysis := Some {| common_topics := None;
                         successful_patterns := None;
                         suggested_personality_additions := None;
                         suggested_behavior_additions := None;
                         speaking_style_refinements := None;
                         raw_response := Some text |} |}.

(** The success record of a parsed analysis. *)
Definition parsed (a : analysis_dict) : learning_analysis :=
  {| success := true; message := None; analysis := Some a |}.

(** ** Sample inputs *)

Module Sample.

(** A success record whose only suggestion is for the personality. *)
Definition learned (personality_addition : string) : learning_analysis :=
  {| success := true; message := None;
     analysis := Some {| common_topics := Some ["travel"];
                         successful_patterns := Some [];
                         suggested_personality_additions := Some personality_addition;
                         suggested_behavior_additions := Some "";
                         speaking_style_refinements := None;
                         raw_response := None |} |}.

Definition kind_profile : gmap string string :=
  {[ "name" := "Alex"; "personality" := "kind"; "background" := "A travel blogger" ]}.

(** A suggestion that ends in the separator. *)
Definition padded_learning : learning_analysis := learned "brave, ".

Definition brave_learning : learning_analysis := learned "brave".

Definition failed_learning : learning_analysis :=
  {| success := false;
     message := Some "Unable to generate analysis at this time.";
     analysis := None |}.

Definition one_profile_store : gmap positive (gmap string string) :=
  {[ 1%positive := kind_profile ]}.

(** A [json.loads] that rejects every document. *)
Definition no_json {A} (s : string) : result A :=
  Raise (JSONDecodeError "Expecting value").

Definition user_says (c : string) : Message := {| role := "user"; content := c |}.
Definition assistant_says (c : string) : Message :=
  {| role := "assistant"; content := c |}.

(** A store whose queries return the given rows, the conversations cut to
    the limit asked for. *)
Definition db_of (convs : list conversation) (msgs : list Message) : db_module :=
  {| get_persona_conversations := fun _ _ limit => Ok (take limit convs);
     get_all_persona_messages := fun _ _ => Ok msgs |}.

(** A store that is down. *)
Definition failing_db : db_module :=
  {| get_persona_conversations := fun _ _ _ => Raise (OtherError "connection refused");
     get_all_persona_messages := fun _ _ => Raise (OtherError "connection refused") |}.

(** One conversation with the single short user message [hi]. *)
Definition short_db : db_module :=
  db_of [{| conv_id := 1; messages := MessagesList [user_says "hi"] |}] [].

(** One conversation without any user message. *)
Definition assistant_only_db : db_module :=
  db_of [{| conv_id := 1; messages := MessagesList [assistant_says "hello"] |}] [].

(** Two conversations, the first with five messages. *)
Definition chat_db : db_module :=
  db_of [{| conv_id := 2;
            messages := MessagesList [user_says "one"; user_says "two";
                                      assistant_says "ok"; user_says "three";
                                      user_says "four"] |};
         {| conv_id := 1; messages := MessagesList [assistant_says "hello"] |}] [].

(** A conversation stored as text that does not decode. *)
Definition corrupt_db : db_module :=
  db_of [{| conv_id := 1; messages := MessagesText "not json" |}] [].

(** Histories of 9 and of 10 messages. *)
Definition nine_db : db_module := db_of [] (replicate 9 (user_says "hi")).
Definition ten_db : db_module := db_of [] (replicate 10 (user_says "hi")).

(** A client that answers every prompt with the same text. *)
Definition answering (t : string) : client :=
  {| generate_content := fun _ _ => Ok {| text := Some t |} |}.

Definition fenced_answer : string :=
  "```json
{}
```".

Definition empty_analysis : analysis_dict :=
  {| common_topics := None; successful_patterns := None;
     suggested_personality_additions := None;
     suggested_behavior_additions := None;
     speaking_style_refinements := None; raw_response := None |}.

(** A [json.loads] that accepts every document as the empty object. *)
Definition any_json (s : string) : result analysis_dict := Ok empty_analysis.

Definition cheerful_profile : gmap string string :=
  {[ "personality" := "Cheerful, optimistic" ]}.

Definition formal_profile : gmap string string :=
  {[ "personality" := "Formal and precise"; "speaking_style" := "" ]}.

Definition plain_profile : gmap string string :=
  {[ "personality" := "Quiet"; "speaking_style" := "plain" ]}.

End Sample.

(** ** Further notions and sample inputs *)

(** The three profile fields the mutation may assign, each with the
    suggestion of the analysis it is fed from. *)
Definition learned_fields (a : analysis_dict) : list (string * option string) :=
  [("personality", suggested_personality_additions a);
   ("behaviors", suggested_behavior_additions a);
   ("speaking_style", speaking_style_refinements a)].

(** The six tone instructions and the four speaking instructions, in the
    order the classification tests them. *)
Definition tone_instructions : list string :=
  ["Use warm, welcoming language";
   "Maintain professional demeanor";
   "Keep responses conversational and relaxed";
   "Show excitement with exclamation marks";
   "Take time to reflect before responding";
   "Include appropriate humor and wit"].

Definition speaking_instructions : list string :=
  ["Keep responses brief and to the point";
   "Provide detailed, comprehensive responses";
   "Ask follow-up questions naturally";
   "Share relevant anecdotes and stories"].

(** What the enhancement appends to a base prompt, as the specification
    words it: the emoji sentence of the usage level (with the example glyphs
    for [high] and [moderate]), then the tone patterns and the speaking
    patterns, each as a labeled bullet list when there are any. *)
Definition appended_guidance (p : patterns) : string :=
  (if decide (emoji_usage p = "high") then
     Py.nl +:+ Py.nl +:+
     "Emoji Usage: Use emojis frequently to express emotions and add warmth. Examples: "
     +:+ Py.join ", " (emoji_examples p)
   else if decide (emoji_usage p = "moderate") then
     Py.nl +:+ Py.nl +:+
     "Emoji Usage: Use emojis occasionally for emphasis. Examples: "
     +:+ Py.join ", " (emoji_examples p)
   else if decide (emoji_usage p = "minimal") then
     Py.nl +:+ Py.nl +:+
     "Emoji Usage: Use emojis sparingly or not at all. Maintain a more formal tone."
   else "")
  +:+ (match tone_patterns p with
       | [] => ""
       | _ :: _ =>
           Py.nl +:+ Py.nl +:+ "Tone Guidelines:" +:+ Py.nl
           +:+ bullet_lines (tone_patterns p)
       end)
  +:+ (match speaking_patterns p with
       | [] => ""
       | _ :: _ =>
           Py.nl +:+ Py.nl +:+ "Speaking Patterns:" +:+ Py.nl
           +:+ bullet_lines (speaking_patterns p)
       end).

(** A history message as a line of the chat prompt. *)
Definition chat_line (msg : Message) : string :=
  (if decide (role msg = "user") then "User: " else "Character: ") +:+ content msg.

Module MoreSamples.

(** A parsed analysis whose suggestions are all empty texts. *)
Definition blank_learning : learning_analysis :=
  {| success := true; message := None;
     analysis := Some {| common_topics := Some [];
                         successful_patterns := Some [];
                         suggested_personality_additions := Some "";
                         suggested_behavior_additions := Some "";
                         speaking_style_refinements := Some "";
                         raw_response := None |} |}.

(** A parsed analysis with a suggestion for the behaviors only. *)
Definition behavior_learning : learning_analysis :=
  {| success := true; message := None;
     analysis := Some {| common_topics := Some ["travel"; "food"];
                         successful_patterns := None;
                         suggested_personality_additions := None;
                         suggested_behavior_additions := Some " asks questions";
                         speaking_style_refinements := None;
                         raw_response := None |} |}.

(** A client whose call fails. *)
Definition raising_client : client :=
  {| generate_content := fun _ _ => Raise (OtherError "quota exceeded") |}.

(** A client that answers without text. *)
Definition silent_client : client :=
  {| generate_content := fun _ _ => Ok {| text := None |} |}.

(** A chat history of four messages. *)
Definition four_messages : list Message :=
  [Sample.user_says "hello"; Sample.assistant_says "hi there";
   Sample.user_says "tell me more"; Sample.assistant_says "gladly"].

(** Chat clients: one that answers a fixed text, one that fails, one that
    answers without text. *)
Definition chat_answering (t : string) : chat_client :=
  {| generate_content_config := fun _ _ _ => Ok {| text := Some t |} |}.

Definition chat_raising : chat_client :=
  {| generate_content_config := fun _ _ _ => Raise (OtherError "quota exceeded") |}.

Definition chat_silent : chat_client :=
  {| generate_content_config := fun _ _ _ => Ok {| text := None |} |}.

(** A profile with tone and speaking cues. *)
Definition warm_profile : gmap string string :=
  {[ "personality" := "Warm and CURIOUS"; "speaking_style" := "Short, detailed" ]}.

(** Two stores whose single conversation ends with the same four messages;
    the first one has two older messages in front. *)
Definition long_db : db_module :=
  Sample.db_of
    [{| conv_id := 1;
        messages := MessagesList
                      ([Sample.user_says "long ago";
                        Sample.assistant_says "indeed"] ++ four_messages) |}] [].

Definition recent_db : db_module :=
  Sample.db_of [{| conv_id := 1; messages := MessagesList four_messages |}] [].

(** A text of 50 two-byte characters (e with acute accent, bytes 195 169). *)
Definition fifty_accents : string :=
  concat_strings (replicate 50 (Py.of_bytes [195; 169])).

(** Three conversations, each with two user messages of 100 such
    characters. *)
Definition accented_db : db_module :=
  Sample.db_of
    (replicate 3
       {| conv_id := 1;
          messages := MessagesList
                        (replicate 2
                           (Sample.user_says (fifty_accents +:+ fifty_accents))) |})
    [].

(** A [json.loads] run that hits the recursion limit ([RecursionError]), as
    on a deeply nested document. *)
Definition recursion_json (s : string) : result analysis_dict :=
  Raise (OtherError
           "maximum recursion depth exceeded while decoding a JSON array from a unicode string").

(** A completion text of 100000 opening brackets. *)
Definition nested_answer : string :=
  concat_strings (replicate (100 * 1000) "[").

(** A profile whose name is made of two spaces. *)
Definition spaces_profile : gmap string string := {[ "name" := "  " ]}.

(** A profile whose speaking style is the empty text. *)
Definition blank_style_profile : gmap string string := {[ "speaking_style" := "" ]}.

End MoreSamples.

(** ** Proof automation *)

(** Decides membership and sublist goals, and refutes such hypotheses, on
    literal lists. *)
Ltac decide_list :=
  match goal with
  | H : _ ∈ _ |- _ =>
      apply (bool_decide_pack _) in H; vm_compute in H; solve [destruct H]
  | |- _ ∈ _ => apply (bool_decide_unpack _); vm_compute; exact I
  | |- _ `sublist_of` _ =>
      repeat first [ apply sublist_nil_l | apply sublist_skip | apply sublist_cons ]
  end.

(** Closes [x ∈ l <-> b = true] for a literal list [l] and a literal [b]. *)
Ltac member_iff :=
  let H := fresh "H" in
  split; intros H; first [ reflexivity | discriminate H | decide_list ].

(** Closes [k ∈ [k1; ...; kn]] for a literal [k] of the list. *)
Ltac key_in := repeat first [ by left | right ].

(** Closes [k ∉ [k1; ...; kn]] for literal keys. *)
Ltac other_key :=
  rewrite ?not_elem_of_cons; repeat split;
  solve [discriminate | apply not_elem_of_nil].

(** * Facts about the string primitives *)

Module PyFacts.
Import Py.

Lemma sapp_nil_l (s : string) : "" +:+ s = s.
Proof. reflexivity. Qed.

Lemma sapp_cons (c : ascii) (s t : string) :
  String c s +:+ t = String c (s +:+ t).
Proof. reflexivity. Qed.

Lemma sapp_nil_r (s : string) : s +:+ "" = s.
Proof. induction s as [|c s IH]; [done|]. by rewrite sapp_cons, IH. Qed.

Lemma sapp_assoc (s t u : string) : (s +:+ t) +:+ u = s +:+ t +:+ u.
Proof. induction s as [|c s IH]; [done|]. by rewrite !sapp_cons, IH. Qed.

Lemma sapp_length (s t : string) : len (s +:+ t) = len s + len t.
Proof.
  unfold len. induction s as [|c s IH]; [done|].
  rewrite sapp_cons. simpl. by rewrite IH.
Qed.

Lemma truthy_true (s : string) : truthy s = true <-> s ≠ "".
Proof. destruct s; simpl; split; congruence. Qed.

(** [startswith] and [contains] against their meaning on concatenations. *)

Lemma startswith_app (p t : string) : startswith p (p +:+ t) = true.
Proof.
  induction p as [|c p IH]; [done|].
  rewrite sapp_cons. simpl. by rewrite decide_True.
Qed.

Lemma startswith_spec (p t : string) :
  startswith p t = true <-> ∃ r, t = p +:+ r.
Proof.
  split.
  - revert t. induction p as [|c p IH]; intros t H.
    + by exists t.
    + destruct t as [|d t]; [done|]. simpl in H.
      destruct (decide (c = d)) as [->|]; [|done].
      destruct (IH _ H) as [r ->]. by exists r.
  - intros [r ->]. apply startswith_app.
Qed.

Lemma startswith_length (p t : string) :
  startswith p t = true -> len p <= len t.
Proof.
  intros [r ->]%startswith_spec. rewrite sapp_length. lia.
Qed.

Lemma contains_spec (p t : string) :
  contains p t = true <-> ∃ a b, t = a +:+ p +:+ b.
Proof.
  split.
  - induction t as [|d t IH]; simpl; intros H.
    + rewrite orb_false_r in H.
      apply startswith_spec in H as [r Hr]. by exists "", r.
    + apply orb_true_iff in H as [H|H].
      * apply startswith_spec in H as [r Hr]. by exists "", r.
      * destruct (IH H) as (a & b & ->). by exists (String d a), b.
  - intros (a & b & ->). induction a as [|c a IH].
    + rewrite sapp_nil_l.
      destruct (p +:+ b) eqn:E; simpl; rewrite <- ?E, startswith_app; done.
    + rewrite sapp_cons. simpl. rewrite IH. apply orb_true_r.
Qed.

Lemma contains_suffix (a p : string) : contains p (a +:+ p) = true.
Proof. apply contains_spec. exists a, "". by rewrite sapp_nil_r. Qed.

(** [lower] is a character-wise map. *)

Lemma lower_app (s t : string) : lower (s +:+ t) = lower s +:+ lower t.
Proof.
  induction s as [|c s IH]; [done|].
  rewrite sapp_cons. simpl. by rewrite IH, sapp_cons.
Qed.

Lemma contains_lower (w t : string) :
  contains w t = true -> contains (lower w) (lower t) = true.
Proof.
  intros (a & b & ->)%contains_spec. apply contains_spec.
  exists (lower a), (lower b). by rewrite !lower_app.
Qed.

(** Stripping. *)

Lemma lstrip_length (chars s : string) : len (lstrip chars s) <= len s.
Proof.
  unfold len. induction s as [|c s IH]; simpl; [lia|].
  destruct (mem_char c chars); simpl; lia.
Qed.

Lemma rstrip_length (chars s : string) : len (rstrip chars s) <= len s.
Proof.
  unfold len. induction s as [|c s IH]; simpl; [lia|].
  destruct (rstrip chars s) eqn:E; simpl in *.
  - destruct (mem_char c chars); simpl; lia.
  - lia.
Qed.

(** A non-empty string that [strip] leaves alone starts with a kept
    character and is left alone by [rstrip]. *)
Lemma strip_fixed (chars s : string) :
  strip chars s = s -> s ≠ "" ->
  (∃ c r, s = String c r ∧ mem_char c chars = false) ∧ rstrip chars s = s.
Proof.
  intros Hs Hne. destruct s as [|c r]; [done|].
  unfold strip in Hs. simpl in Hs.
  destruct (mem_char c chars) eqn:Hc.
  - exfalso.
    pose proof (rstrip_length chars (lstrip chars r)) as H1.
    pose proof (lstrip_length chars r) as H2.
    rewrite Hs in H1. unfold len in *. simpl in *. lia.
  - split; [by exists c, r|done].
Qed.

Lemma lstrip_app_kept (chars a : string) (c : ascii) (r : string) :
  mem_char c chars = false ->
  lstrip chars (a +:+ String c r) = lstrip chars a +:+ String c r.
Proof.
  intros Hc. induction a as [|d a IH].
  - rewrite !sapp_nil_l. simpl. by rewrite Hc.
  - rewrite sapp_cons. simpl. destruct (mem_char d chars); [done|].
    by rewrite sapp_cons.
Qed.

Lemma rstrip_app_fixed (chars a s : string) :
  rstrip chars s = s -> s ≠ "" -> rstrip chars (a +:+ s) = a +:+ s.
Proof.
  intros Hs Hne. induction a as [|d a IH]; [done|].
  rewrite sapp_cons. simpl. rewrite IH.
  destruct (a +:+ s) eqn:E; [|done].
  destruct a; [|done]. by rewrite sapp_nil_l in E.
Qed.

(** The text appended by the profile mutation survives the strip when it
    has no leading or trailing strip character. *)
Lemma strip_joined (chars cur sep s : string) :
  strip chars s = s -> s ≠ "" ->
  strip chars (cur +:+ sep +:+ s) = lstrip chars (cur +:+ sep) +:+ s.
Proof.
  intros Hs Hne.
  destruct (strip_fixed _ _ Hs Hne) as ((c & r & -> & Hc) & Hr).
  unfold strip. rewrite <- sapp_assoc, (lstrip_app_kept _ _ _ _ Hc).
  by apply rstrip_app_fixed.
Qed.

End PyFacts.

(** * [apply_learning_to_persona]: frame, copy and idempotence *)

Section ProfileMutator.
Import Py PyFacts.
Implicit Types (P : gmap string string) (h : gmap positive (gmap string string)).

Lemma add_learned_lookup_ne key s P k :
  k ≠ key -> add_learned key s P !! k = P !! k.
Proof.
  intros Hk. unfold add_learned.
  destruct s as [n|]; [|done].
  destruct (truthy n); [|done]. simpl.
  destruct (negb _); [|done].
  by rewrite lookup_insert_ne.
Qed.

Lemma dict_get_add_learned_ne key s P k dflt :
  k ≠ key -> dict_get (add_learned key s P) k dflt = dict_get P k dflt.
Proof. intros Hk. unfold dict_get. by rewrite add_learned_lookup_ne. Qed.

(** Blocks on different keys do not interfere. *)
Lemma add_learned_comm k1 k2 s1 s2 P :
  k1 ≠ k2 ->
  add_learned k1 s1 (add_learned k2 s2 P)
  = add_learned k2 s2 (add_learned k1 s1 P).
Proof.
  intros Hk.
  assert (dict_get (add_learned k2 s2 P) k1 "" = dict_get P k1 "") as E1
    by by apply dict_get_add_learned_ne.
  assert (dict_get (add_learned k1 s1 P) k2 "" = dict_get P k2 "") as E2
    by by apply dict_get_add_learned_ne.
  unfold add_learned in *.
  destruct s1 as [n1|], s2 as [n2|]; try done.
  destruct (truthy n1), (truthy n2); try done. simpl in *.
  rewrite E1, E2.
  destruct (negb (contains n1 _)), (negb (contains n2 _)); try done.
  by apply insert_insert_ne.
Qed.

(** One block, applied twice with a suggestion that has no leading or
    trailing comma or space, is the block applied once. *)
Lemma add_learned_idem key s P :
  unpadded s = true ->
  add_learned key s (add_learned key s P) = add_learned key s P.
Proof.
  intros Hs. unfold add_learned at 2.
  destruct s as [n|]; [|done].
  destruct (truthy n) eqn:Hn; [|by simpl; rewrite Hn]. simpl.
  destruct (contains n (dict_get P key "")) eqn:Hc; simpl.
  - unfold add_learned. by rewrite Hn, Hc.
  - unfold add_learned. rewrite Hn. simpl.
    unfold dict_get at 1. rewrite lookup_insert_eq. simpl.
    apply bool_decide_eq_true in Hs.
    rewrite strip_joined; [|done|by apply truthy_true].
    by rewrite contains_suffix.
Qed.

(** The three keys the function may assign. *)
Lemma apply_learning_lookup_other P A k :
  k ∉ ["personality"; "behaviors"; "speaking_style"] ->
  apply_learning_to_persona P A !! k = P !! k.
Proof.
  intros Hk. unfold apply_learning_to_persona.
  destruct (analysis A) as [a|]; [|done].
  rewrite !add_learned_lookup_ne; [done|..];
    intros ->; apply Hk; set_solver.
Qed.

(** Running one block on the object at [r]. *)
Lemma add_learned_obj_run key s (r : positive) h P :
  h !! r = Some P ->
  add_learned_obj key s r h = Some (tt, <[r := add_learned key s P]> h).
Proof.
  intros Hr. unfold add_learned_obj, add_learned.
  assert (Some (tt, h) = Some (tt, <[r := P]> h)) as Hid
    by by rewrite insert_id.
  destruct s as [n|]; [|done].
  destruct (truthy n); [|done]. simpl.
  unfold mbind, St_bind, obj_get. rewrite Hr.
  destruct (negb _); [|done].
  unfold obj_set. by rewrite Hr.
Qed.

(** The function on objects allocates a fresh dict holding the value the
    pure function computes, and writes nowhere else. *)
Lemma apply_learning_obj_run (r : positive) A h P :
  h !! r = Some P ->
  apply_learning_to_persona_obj r A h
  = Some (fresh (dom h), <[fresh (dom h) := apply_learning_to_persona P A]> h).
Proof.
  intros Hr. unfold apply_learning_to_persona_obj, apply_learning_to_persona.
  unfold mbind at 1. unfold St_bind at 1. unfold obj_copy. rewrite Hr.
  set (r' := fresh (dom h)).
  destruct (analysis A) as [a|]; [|done].
  unfold mbind, St_bind.
  rewrite (add_learned_obj_run _ _ _ _ P) by apply lookup_insert_eq.
  rewrite insert_insert_eq.
  rewrite (add_learned_obj_run _ _ _ _ _ (lookup_insert_eq _ _ _)).
  rewrite insert_insert_eq.
  rewrite (add_learned_obj_run _ _ _ _ _ (lookup_insert_eq _ _ _)).
  by rewrite insert_insert_eq.
Qed.

End ProfileMutator.

(** * Properties of the profile mutation *)

(** C1, as stated, fails: with the profile [{name: Alex, personality: kind,
    background: ...}] and a successful analysis whose personality suggestion
    is ["brave, "], the first application yields the personality
    ["kind, brave"] (the strip removes the trailing separator), in which the
    suggestion does not occur, so the second application appends it again. *)
Lemma apply_learning_not_idempotent :
  success Sample.padded_learning = true ∧
  apply_learning_to_persona Sample.kind_profile Sample.padded_learning
    !! "personality" = Some "kind, brave" ∧
  apply_learning_to_persona
    (apply_learning_to_persona Sample.kind_profile Sample.padded_learning)
    Sample.padded_learning !! "personality" = Some "kind, brave, brave" ∧
  apply_learning_to_persona
    (apply_learning_to_persona Sample.kind_profile Sample.padded_learning)
    Sample.padded_learning
  ≠ apply_learning_to_persona Sample.kind_profile Sample.padded_learning.
Proof.
  assert (apply_learning_to_persona Sample.kind_profile Sample.padded_learning
            !! "personality" = Some "kind, brave") as H1 by (vm_compute; reflexivity).
  assert (apply_learning_to_persona
            (apply_learning_to_persona Sample.kind_profile Sample.padded_learning)
            Sample.padded_learning !! "personality" = Some "kind, brave, brave")
    as H2 by (vm_compute; reflexivity).
  repeat split; try assumption.
  intros E. rewrite E, H1 in H2. discriminate H2.
Qed.

(** C1, amended: the profile mutation is idempotent for every profile P and
    every analysis A whose three suggestions, when present, have no leading
    or trailing comma or space:
    mutate(mutate(P, A), A) = mutate(P, A). *)
Theorem apply_learning_idempotent_unpadded (P : gmap string string)
    (A : learning_analysis) :
  unpadded_analysis A = true ->
  apply_learning_to_persona (apply_learning_to_persona P A) A
  = apply_learning_to_persona P A.
Proof.
  unfold unpadded_analysis, apply_learning_to_persona.
  destruct (analysis A) as [a|]; [|done].
  intros [[H1 H2]%andb_true_iff H3]%andb_true_iff.
  set (m1 := add_learned "personality" (suggested_personality_additions a)).
  set (m2 := add_learned "behaviors" (suggested_behavior_additions a)).
  set (m3 := add_learned "speaking_style" (speaking_style_refinements a)).
  assert (∀ X, m1 (m3 X) = m3 (m1 X)) as C13
    by (intros X; by apply add_learned_comm).
  assert (∀ X, m1 (m2 X) = m2 (m1 X)) as C12
    by (intros X; by apply add_learned_comm).
  assert (∀ X, m2 (m3 X) = m3 (m2 X)) as C23
    by (intros X; by apply add_learned_comm).
  assert (∀ X, m1 (m1 X) = m1 X) as I1 by (intros X; by apply add_learned_idem).
  assert (∀ X, m2 (m2 X) = m2 X) as I2 by (intros X; by apply add_learned_idem).
  assert (∀ X, m3 (m3 X) = m3 X) as I3 by (intros X; by apply add_learned_idem).
  by rewrite C13, C12, I1, C23, I2, I3.
Qed.

Lemma apply_learning_idempotent_unpadded_witness :
  unpadded_analysis Sample.brave_learning = true ∧
  apply_learning_to_persona
    (apply_learning_to_persona Sample.kind_profile Sample.brave_learning)
    Sample.brave_learning
  = apply_learning_to_persona Sample.kind_profile Sample.brave_learning.
Proof.
  split; [reflexivity|].
  apply (apply_learning_idempotent_unpadded Sample.kind_profile Sample.brave_learning).
  reflexivity.
Defined.

(** C8: for every profile P stored at a reference and every analysis A, the
    profile mutation returns a newly allocated dict; the input object, and
    every other object of the store, is left as it was; in the returned
    profile the fields [name] and [background] (indeed every key other than
    [personality], [behaviors] and [speaking_style]) are those of P. *)
Theorem apply_learning_copies_and_frames (h : gmap positive (gmap string string))
    (r : positive) (P : gmap string string) (A : learning_analysis) :
  h !! r = Some P ->
  ∃ r' h' P',
    apply_learning_to_persona_obj r A h = Some (r', h') ∧
    h !! r' = None ∧ r' ≠ r ∧
    h' !! r = Some P ∧
    (∀ q, q ≠ r' -> h' !! q = h !! q) ∧
    h' !! r' = Some P' ∧
    P' = apply_learning_to_persona P A ∧
    P' !! "name" = P !! "name" ∧
    P' !! "background" = P !! "background" ∧
    (∀ k, k ∉ ["personality"; "behaviors"; "speaking_style"] -> P' !! k = P !! k).
Proof.
  intros Hr.
  assert (h !! fresh (dom h) = None) as Hf
    by (apply not_elem_of_dom, is_fresh).
  assert (fresh (dom h) ≠ r) as Hne by (intros E; rewrite E in Hf; congruence).
  exists (fresh (dom h)), (<[fresh (dom h) := apply_learning_to_persona P A]> h),
         (apply_learning_to_persona P A).
  split; [by apply apply_learning_obj_run|].
  split; [done|]. split; [done|].
  split; [by rewrite lookup_insert_ne|].
  split; [intros q Hq; by rewrite lookup_insert_ne|].
  split; [apply lookup_insert_eq|]. split; [done|].
  split; [apply apply_learning_lookup_other; other_key|].
  split; [apply apply_learning_lookup_other; other_key|].
  apply apply_learning_lookup_other.
Qed.

Lemma apply_learning_copies_and_frames_witness :
  Sample.one_profile_store !! 1%positive = Some Sample.kind_profile ∧
  ∃ r' h' P',
    apply_learning_to_persona_obj 1%positive Sample.brave_learning
      Sample.one_profile_store = Some (r', h') ∧
    Sample.one_profile_store !! r' = None ∧ r' ≠ 1%positive ∧
    h' !! 1%positive = Some Sample.kind_profile ∧
    (∀ q, q ≠ r' -> h' !! q = Sample.one_profile_store !! q) ∧
    h' !! r' = Some P' ∧
    P' = apply_learning_to_persona Sample.kind_profile Sample.brave_learning ∧
    P' !! "name" = Sample.kind_profile !! "name" ∧
    P' !! "background" = Sample.kind_profile !! "background" ∧
    (∀ k, k ∉ ["personality"; "behaviors"; "speaking_style"] ->
          P' !! k = Sample.kind_profile !! k).
Proof.
  split; [reflexivity|].
  apply (apply_learning_copies_and_frames Sample.one_profile_store 1%positive
           Sample.kind_profile Sample.brave_learning).
  reflexivity.
Defined.

(** C10: for every profile P and every learning record without an analysis
    payload, in particular every failure record, the profile mutation
    returns a profile equal to P. *)
Theorem apply_learning_without_payload (P : gmap string string)
    (A : learning_analysis) :
  analysis A = None ->
  apply_learning_to_persona P A = P ∧
  (∀ msg, apply_learning_to_persona P (failure msg) = P).
Proof.
  intros HA. unfold apply_learning_to_persona. rewrite HA. by split.
Qed.

Lemma apply_learning_without_payload_witness :
  analysis Sample.failed_learning = None ∧
  apply_learning_to_persona Sample.kind_profile Sample.failed_learning
  = Sample.kind_profile ∧
  (∀ msg, apply_learning_to_persona Sample.kind_profile (failure msg)
          = Sample.kind_profile).
Proof.
  split; [reflexivity|].
  apply (apply_learning_without_payload Sample.kind_profile Sample.failed_learning).
  reflexivity.
Defined.

(** * Properties of the trait classification *)

Section TraitClassifier.
Import Py PyFacts.
Implicit Types (P : gmap string string).

Lemma any_keyword_spec keywords p s :
  any_keyword keywords p s = true
  <-> ∃ k, k ∈ keywords ∧ (occurs k p ∨ occurs k s).
Proof.
  unfold any_keyword, occurs. rewrite existsb_exists. split.
  - intros (k & Hk & H). exists k. split; [by apply list_elem_of_In|].
    apply orb_true_iff in H as [H|H]; [left|right]; by apply contains_spec.
  - intros (k & Hk & H). exists k. split; [by apply list_elem_of_In|].
    apply orb_true_iff. destruct H as [H|H]; [left|right]; by apply contains_spec.
Qed.

Lemma keyword_present_spec keywords P :
  keyword_present keywords P
  <-> any_keyword keywords (lower (dict_get P "personality" ""))
        (lower (dict_get P "speaking_style" "")) = true.
Proof. unfold keyword_present. by rewrite any_keyword_spec. Qed.

Lemma emoji_usage_cases P :
  let p := lower (dict_get P "personality" "") in
  let s := lower (dict_get P "speaking_style" "") in
  (emoji_usage (analyze_tone_and_emoji_patterns P),
   emoji_examples (analyze_tone_and_emoji_patterns P))
  = if any_keyword high_emoji_keywords p s then ("high", high_emoji_examples)
    else if any_keyword low_emoji_keywords p s then ("minimal", [])
    else ("moderate", moderate_emoji_examples).
Proof.
  unfold analyze_tone_and_emoji_patterns. cbv zeta.
  destruct (any_keyword high_emoji_keywords _ _); [reflexivity|].
  destruct (any_keyword low_emoji_keywords _ _); reflexivity.
Qed.

Lemma emoji_high P :
  keyword_present high_emoji_keywords P ->
  emoji_usage (analyze_tone_and_emoji_patterns P) = "high"
  ∧ emoji_examples (analyze_tone_and_emoji_patterns P) = high_emoji_examples.
Proof.
  intros H%keyword_present_spec. pose proof (emoji_usage_cases P) as E.
  cbv zeta in E. rewrite H in E. by inversion E.
Qed.

Lemma emoji_minimal P :
  ¬ keyword_present high_emoji_keywords P ->
  keyword_present low_emoji_keywords P ->
  emoji_usage (analyze_tone_and_emoji_patterns P) = "minimal"
  ∧ emoji_examples (analyze_tone_and_emoji_patterns P) = [].
Proof.
  rewrite !keyword_present_spec. intros Hh%not_true_is_false Hl.
  pose proof (emoji_usage_cases P) as E.
  cbv zeta in E. rewrite Hh, Hl in E. by inversion E.
Qed.

Lemma emoji_moderate P :
  ¬ keyword_present high_emoji_keywords P ->
  ¬ keyword_present low_emoji_keywords P ->
  emoji_usage (analyze_tone_and_emoji_patterns P) = "moderate"
  ∧ emoji_examples (analyze_tone_and_emoji_patterns P) = moderate_emoji_examples.
Proof.
  rewrite !keyword_present_spec. intros Hh%not_true_is_false Hl%not_true_is_false.
  pose proof (emoji_usage_cases P) as E.
  cbv zeta in E. rewrite Hh, Hl in E. by inversion E.
Qed.

Lemma occurs_lower w t : occurs w t -> occurs (lower w) (lower t).
Proof. intros (a & b & ->). exists (lower a), (lower b). by rewrite !lower_app. Qed.

End TraitClassifier.

(** C2: for every profile, the emoji decision follows the fixed precedence
    over the lower-cased [personality] and [speaking_style]: a high-emoji
    keyword gives usage [high] with the fixed set of 8 glyphs; otherwise a
    low-emoji keyword gives [minimal] with no examples; otherwise [moderate]
    with the fixed set of 3 glyphs.  In particular a personality containing
    "cheerful" in any letter case gives [high] with examples, and a
    personality containing "formal", with no high-emoji keyword in the
    profile, gives [minimal] without examples. *)
Theorem emoji_decision_precedence (P : gmap string string) :
  let r := analyze_tone_and_emoji_patterns P in
  (keyword_present high_emoji_keywords P ->
     emoji_usage r = "high" ∧ emoji_examples r = high_emoji_examples) ∧
  (¬ keyword_present high_emoji_keywords P ->
   keyword_present low_emoji_keywords P ->
     emoji_usage r = "minimal" ∧ emoji_examples r = []) ∧
  (¬ keyword_present high_emoji_keywords P ->
   ¬ keyword_present low_emoji_keywords P ->
     emoji_usage r = "moderate" ∧ emoji_examples r = moderate_emoji_examples) ∧
  length high_emoji_examples = 8 ∧ length moderate_emoji_examples = 3 ∧
  high_emoji_keywords
    = ["cheerful"; "enthusiastic"; "upbeat"; "energetic"; "bubbly";
       "expressive"; "fun"; "playful"] ∧
  low_emoji_keywords
    = ["serious"; "professional"; "formal"; "reserved"; "stoic"; "academic";
       "scholarly"] ∧
  (∀ personality w,
     P !! "personality" = Some personality ->
     Py.lower w = "cheerful" -> occurs w personality ->
     emoji_usage r = "high" ∧ emoji_examples r ≠ []) ∧
  (∀ personality,
     P !! "personality" = Some personality ->
     occurs "formal" (Py.lower personality) ->
     ¬ keyword_present high_emoji_keywords P ->
     emoji_usage r = "minimal" ∧ emoji_examples r = []).
Proof.
  cbv zeta.
  split; [apply emoji_high|]. split; [apply emoji_minimal|].
  split; [apply emoji_moderate|]. do 4 (split; [reflexivity|]). split.
  - intros personality w HP Hw Hocc.
    destruct (emoji_high P) as [-> ->]; [|done].
    exists "cheerful". split; [by left|]. left.
    unfold dict_get. rewrite HP. simpl. rewrite <- Hw. by apply occurs_lower.
  - intros personality HP Hocc Hh. apply emoji_minimal; [done|].
    exists "formal". split; [unfold low_emoji_keywords; key_in|]. left.
    unfold dict_get. by rewrite HP.
Qed.

Lemma emoji_decision_precedence_witness :
  (emoji_usage (analyze_tone_and_emoji_patterns Sample.cheerful_profile) = "high"
   ∧ emoji_examples (analyze_tone_and_emoji_patterns Sample.cheerful_profile) ≠ []) ∧
  (emoji_usage (analyze_tone_and_emoji_patterns Sample.formal_profile) = "minimal"
   ∧ emoji_examples (analyze_tone_and_emoji_patterns Sample.formal_profile) = []) ∧
  (emoji_usage (analyze_tone_and_emoji_patterns Sample.plain_profile) = "moderate"
   ∧ emoji_examples (analyze_tone_and_emoji_patterns Sample.plain_profile)
     = moderate_emoji_examples).
Proof.
  split; [|split].
  - destruct (emoji_decision_precedence Sample.cheerful_profile)
      as (_ & _ & _ & _ & _ & _ & _ & H & _).
    apply (H "Cheerful, optimistic" "Cheerful");
      [reflexivity | reflexivity | by exists "", ", optimistic"].
  - destruct (emoji_decision_precedence Sample.formal_profile)
      as (_ & _ & _ & _ & _ & _ & _ & _ & H).
    apply (H "Formal and precise");
      [reflexivity | by exists "", " and precise" |].
    rewrite keyword_present_spec. vm_compute. discriminate.
  - destruct (emoji_decision_precedence Sample.plain_profile)
      as (_ & _ & H & _).
    apply H; rewrite keyword_present_spec; vm_compute; discriminate.
Defined.

(** * Properties of the prompt composition *)

Section PromptComposer.
Import Py PyFacts.
Implicit Types (P : gmap string string).

Lemma emit_field_paragraph label key P prompt :
  emit_field label key P prompt
  = prompt +:+ (if field_present P key then paragraph P (key, label) else "").
Proof.
  unfold emit_field, field_present, paragraph, dict_get. simpl.
  destruct (P !! key) as [v|]; simpl; [|by rewrite sapp_nil_r].
  destruct (truthy v); [done|by rewrite sapp_nil_r].
Qed.

Lemma emit_fields_paragraphs P fields prompt :
  fold_left (fun prompt field => emit_field field.2 field.1 P prompt) fields prompt
  = prompt +:+ concat_strings
      (map (paragraph P) (List.filter (fun field => field_present P field.1) fields)).
Proof.
  revert prompt. induction fields as [|[key label] fields IH]; intros prompt; simpl.
  - by rewrite sapp_nil_r.
  - rewrite IH, emit_field_paragraph.
    destruct (field_present P key); simpl.
    + by rewrite sapp_assoc.
    + by rewrite sapp_nil_r.
Qed.

Lemma field_present_blank P k key :
  field_present (<[k := ""]> P) key = field_present (delete k P) key.
Proof.
  unfold field_present. destruct (decide (k = key)) as [->|Hk].
  - by rewrite lookup_insert_eq, lookup_delete_eq.
  - by rewrite lookup_insert_ne, lookup_delete_ne.
Qed.

Lemma emit_field_blank label key P k prompt :
  emit_field label key (<[k := ""]> P) prompt
  = emit_field label key (delete k P) prompt.
Proof.
  unfold emit_field. destruct (decide (k = key)) as [->|Hk].
  - by rewrite lookup_insert_eq, lookup_delete_eq.
  - by rewrite lookup_insert_ne, lookup_delete_ne.
Qed.

Lemma dict_get_blank P k key :
  dict_get (<[k := ""]> P) key "" = dict_get (delete k P) key "".
Proof.
  unfold dict_get. destruct (decide (k = key)) as [->|Hk].
  - by rewrite lookup_insert_eq, lookup_delete_eq.
  - by rewrite lookup_insert_ne, lookup_delete_ne.
Qed.

Lemma generate_system_prompt_blank P k :
  generate_system_prompt (<[k := ""]> P) = generate_system_prompt (delete k P).
Proof. unfold generate_system_prompt. by rewrite !emit_field_blank. Qed.

Lemma analyze_blank P k :
  analyze_tone_and_emoji_patterns (<[k := ""]> P)
  = analyze_tone_and_emoji_patterns (delete k P).
Proof. unfold analyze_tone_and_emoji_patterns. by rewrite !dict_get_blank. Qed.

(** The enhancement leaves the base prompt as it is and appends the
    guidance. *)
Lemma enhance_appends (base : string) (p : patterns) :
  enhance_system_prompt_with_patterns base p = base +:+ appended_guidance p.
Proof.
  unfold enhance_system_prompt_with_patterns, appended_guidance. cbv zeta.
  set (e := if decide (emoji_usage p = "high") then _ else _).
  set (g := if decide (emoji_usage p = "high") then _ else _).
  assert (e = base +:+ g) as ->.
  { subst e g. repeat case_decide; rewrite ?sapp_nil_r; done. }
  destruct (tone_patterns p) as [|t ts], (speaking_patterns p) as [|sp sps];
    simpl list_truthy; cbv iota; rewrite ?sapp_nil_r, ?sapp_assoc; done.
Qed.

Lemma field_present_spec P key :
  field_present P key = true <-> ∃ v, P !! key = Some v ∧ v ≠ "".
Proof.
  unfold field_present. destruct (P !! key) as [v|]; split.
  - intros H%truthy_true. by exists v.
  - intros (w & [= <-] & Hw). by apply truthy_true.
  - done.
  - by intros (w & ? & _).
Qed.

End PromptComposer.

(** C6, as stated, fails for a blank value that is not the empty text: the
    profile whose name is two spaces (a text that white-space stripping
    empties) gets the paragraph [Name:] with the two spaces, which the
    profile without a name does not have. *)
Lemma field_of_spaces_is_emitted :
  MoreSamples.spaces_profile !! "name" = Some "  " ∧
  Py.strip_ws "  " = "" ∧
  Py.contains "Name: " (generate_system_prompt MoreSamples.spaces_profile) = true ∧
  Py.contains "Name: "
    (generate_system_prompt (delete "name" MoreSamples.spaces_profile)) = false ∧
  generate_system_prompt MoreSamples.spaces_profile
  ≠ generate_system_prompt (delete "name" MoreSamples.spaces_profile) ∧
  compose_system_prompt MoreSamples.spaces_profile
  ≠ compose_system_prompt (delete "name" MoreSamples.spaces_profile).
Proof.
  assert (Py.contains "Name: " (generate_system_prompt MoreSamples.spaces_profile)
          = true) as H1 by (vm_compute; reflexivity).
  assert (Py.contains "Name: "
            (generate_system_prompt (delete "name" MoreSamples.spaces_profile))
          = false) as H2 by (vm_compute; reflexivity).
  assert (Py.contains "Name: " (compose_system_prompt MoreSamples.spaces_profile)
          = true) as H3 by (vm_compute; reflexivity).
  assert (Py.contains "Name: "
            (compose_system_prompt (delete "name" MoreSamples.spaces_profile))
          = false) as H4 by (vm_compute; reflexivity).
  split; [reflexivity|]. split; [vm_compute; reflexivity|].
  split; [done|]. split; [done|]. split.
  - intros E. rewrite E, H2 in H1. discriminate H1.
  - intros E. rewrite E, H4 in H3. discriminate H3.
Qed.

(** C6, amended: for every profile, the base prompt is the fixed header,
    then one labeled paragraph for exactly the fields bound to a non-empty
    text, in the order name, personality, behaviors, speaking_style,
    mannerisms, background, then the instruction block; the composed prompt
    is that base prompt followed by the guidance of the profile's tone
    configuration.  Binding any key to the empty text gives the same base
    prompt, and the same composed prompt, as leaving that key out. *)
Theorem prompt_lists_present_fields (P : gmap string string) :
  generate_system_prompt P
  = prompt_header +:+ labeled_paragraphs P +:+ prompt_instructions ∧
  compose_system_prompt P
  = prompt_header +:+ labeled_paragraphs P +:+ prompt_instructions
    +:+ appended_guidance (analyze_tone_and_emoji_patterns P) ∧
  map fst profile_fields
  = ["name"; "personality"; "behaviors"; "speaking_style"; "mannerisms";
     "background"] ∧
  (∀ key, field_present P key = true <-> ∃ v, P !! key = Some v ∧ v ≠ "") ∧
  (∀ k, generate_system_prompt (<[k := ""]> P)
        = generate_system_prompt (delete k P)) ∧
  (∀ k, compose_system_prompt (<[k := ""]> P)
        = compose_system_prompt (delete k P)).
Proof.
  assert (generate_system_prompt P
          = prompt_header +:+ labeled_paragraphs P +:+ prompt_instructions) as Hg.
  { unfold generate_system_prompt, labeled_paragraphs.
    pose proof (emit_fields_paragraphs P profile_fields prompt_header) as E.
    simpl in E. rewrite E. by rewrite PyFacts.sapp_assoc. }
  split; [done|]. split; [|split; [reflexivity|split; [|split]]].
  - unfold compose_system_prompt. cbv zeta.
    rewrite enhance_appends, Hg. by rewrite !PyFacts.sapp_assoc.
  - intros key. apply field_present_spec.
  - apply generate_system_prompt_blank.
  - intros k. unfold compose_system_prompt.
    by rewrite generate_system_prompt_blank, analyze_blank.
Qed.

Lemma prompt_lists_present_fields_witness :
  field_present Sample.cheerful_profile "personality" = true.
Proof.
  apply (proj1 (proj2 (proj2 (proj2 (prompt_lists_present_fields
                                       Sample.cheerful_profile))))).
  exists "Cheerful, optimistic". split; [reflexivity|discriminate].
Defined.

(** * Properties of the feedback advice *)

(** C9, as stated, fails when "populated" means holding a text: for the
    profile whose speaking style is the empty text, the negative advice
    still has the speaking-style bullet. *)
Lemma empty_field_gets_bullet :
  MoreSamples.blank_style_profile !! "speaking_style" = Some "" ∧
  apply_feedback_to_persona MoreSamples.blank_style_profile "negative" ""
  = ["💡 Here are some ways to improve:";
     "- Try adjusting the speaking style for better alignment";
     "- Use the 'Refine' feature to get AI-powered suggestions"].
Proof. split; vm_compute; reflexivity. Qed.

(** C9, amended: for every profile, a positive signal returns the fixed
    two-item encouragement list; any other signal (the negative one)
    returns the fixed lead-in, then the speaking-style bullet and the
    personality bullet, each exactly when the profile has the corresponding
    key, whatever its value (the empty text included), then the fixed
    closing bullet that recommends the Refine feature. *)
Theorem feedback_advice (P : gmap string string)
    (feedback_type response_context : string) :
  let advice := apply_feedback_to_persona P feedback_type response_context in
  (feedback_type = "positive" ->
     advice =
       ["✅ Great! The character's response style is working well in this context.";
        "Consider saving this persona if you haven't already."]) ∧
  (feedback_type ≠ "positive" ->
     advice = negative_advice P ∧
     head advice = Some "💡 Here are some ways to improve:" ∧
     last advice = Some "- Use the 'Refine' feature to get AI-powered suggestions" ∧
     ("- Try adjusting the speaking style for better alignment" ∈ advice
      <-> is_Some (P !! "speaking_style")) ∧
     ("- Consider refining personality traits to better match expectations" ∈ advice
      <-> is_Some (P !! "personality"))).
Proof.
  cbv zeta. unfold apply_feedback_to_persona, negative_advice, has_key, append_if.
  split; intros Hf.
  - by rewrite decide_True.
  - rewrite decide_False by done.
    destruct (decide (is_Some (P !! "speaking_style"))) as [Hs|Hs];
      destruct (decide (is_Some (P !! "personality"))) as [Hp|Hp];
      rewrite ?(bool_decide_eq_true_2 _ Hs), ?(bool_decide_eq_false_2 _ Hs),
              ?(bool_decide_eq_true_2 _ Hp), ?(bool_decide_eq_false_2 _ Hp);
      simpl; (split; [reflexivity|]); (split; [reflexivity|]);
      (split; [reflexivity|]); rewrite ?elem_of_cons, ?elem_of_nil;
      split; split; intros H; try done; try tauto;
      repeat (destruct H as [H|H]; try discriminate H; try done).
Qed.

Lemma feedback_advice_witness :
  apply_feedback_to_persona Sample.cheerful_profile "positive" ""
  = ["✅ Great! The character's response style is working well in this context.";
     "Consider saving this persona if you haven't already."] ∧
  apply_feedback_to_persona Sample.cheerful_profile "negative" ""
  = negative_advice Sample.cheerful_profile.
Proof.
  split.
  - apply (proj1 (feedback_advice Sample.cheerful_profile "positive" "")).
    reflexivity.
  - apply (proj2 (feedback_advice Sample.cheerful_profile "negative" "")).
    discriminate.
Defined.

(** * Properties of the memory context *)

Section MemorySummarizer.
Import PyFacts.
Variable json_loads_messages : string -> result (list Message).
Implicit Types (msgs : list Message) (convs : list conversation).

Lemma neg_index_reverse {A} (xs : list A) (i : nat) (x : A) :
  reverse xs !! i = Some x -> neg_index xs (i + 1) = Ok x.
Proof.
  intros H. pose proof (lookup_lt_Some _ _ _ H) as Hl.
  rewrite length_reverse in Hl.
  rewrite reverse_lookup in H by lia.
  unfold neg_index. rewrite decide_True by lia.
  replace (length xs - (i + 1)) with (length xs - S i) by lia.
  by rewrite H.
Qed.

(** The inner loop from index [i] on: it never raises, and appends the
    bullets of the user messages it walks over. *)
Lemma summary_loop_seq msgs (n i : nat) (acc : list string) :
  i + n <= length msgs ->
  summary_loop msgs (seq i n) acc
  = Ok (acc ++ map summary_point
                 (filter (fun msg => role msg = "user")
                         (take n (drop i (reverse msgs))))).
Proof.
  revert i acc. induction n as [|n IH]; intros i acc Hn; simpl.
  - by rewrite app_nil_r.
  - destruct (lookup_lt_is_Some_2 (reverse msgs) i) as [x Hx];
      [rewrite length_reverse; lia|].
    unfold mbind, result_bind, rbind.
    rewrite (neg_index_reverse _ _ _ Hx), (drop_S _ _ _ Hx). simpl take.
    rewrite IH by lia. rewrite filter_cons.
    destruct (decide (role x = "user")); simpl; [|done].
    by rewrite <- app_assoc.
Qed.

Lemma summary_loop_all msgs :
  summary_loop msgs (seq 0 (Nat.min 4 (length msgs))) []
  = Ok (map summary_point
          (filter (fun msg => role msg = "user") (take 4 (reverse msgs)))).
Proof.
  assert (take (Nat.min 4 (length msgs)) (reverse msgs) = take 4 (reverse msgs))
    as E.
  { destruct (decide (4 <= length msgs)) as [H|H].
    - by rewrite Nat.min_l.
    - rewrite Nat.min_r by lia.
      rewrite !take_ge; [done|rewrite length_reverse; lia..]. }
  rewrite summary_loop_seq by lia. by rewrite drop_0, E.
Qed.

(** One pass of the outer loop appends the block of the session. *)
Lemma session_block_step msgs (memory_context : string) :
  (if list_truthy
        (map summary_point
           (filter (fun msg => role msg = "user") (take 4 (reverse msgs))))
   then memory_context +:+ Py.nl +:+ "Previous session:" +:+ Py.nl
        +:+ Py.join Py.nl
              (Py.list_first 2
                 (map summary_point
                    (filter (fun msg => role msg = "user") (take 4 (reverse msgs)))))
   else memory_context)
  = memory_context +:+ session_block msgs.
Proof.
  unfold session_block, session_bullets, Py.list_first.
  destruct (map summary_point _) as [|b bs]; simpl.
  - by rewrite sapp_nil_r.
  - done.
Qed.

Lemma conversations_loop_blocks convs (msgss : list (list Message))
    (memory_context : string) :
  Forall2 (fun conv msgs => conv_messages json_loads_messages conv = Ok msgs)
          convs msgss ->
  conversations_loop json_loads_messages convs memory_context
  = Ok (memory_context +:+ concat_strings (map session_block msgss)).
Proof.
  intros H. revert memory_context.
  induction H as [|conv msgs convs msgss Hc _ IH]; intros memory_context; simpl.
  - by rewrite sapp_nil_r.
  - unfold mbind, result_bind, rbind. rewrite Hc, summary_loop_all.
    rewrite session_block_step, IH. by rewrite sapp_assoc.
Qed.

(** A conversation that does not decode makes the outer loop raise. *)
Lemma conversations_loop_raises convs (memory_context : string) :
  (∃ conv e, conv ∈ convs ∧ conv_messages json_loads_messages conv = Raise e) ->
  ∃ e, conversations_loop json_loads_messages convs memory_context = Raise e.
Proof.
  revert memory_context.
  induction convs as [|conv convs IH]; intros memory_context (c & e & Hin & Hc).
  - by apply elem_of_nil in Hin.
  - simpl. unfold mbind, result_bind, rbind.
    destruct (conv_messages json_loads_messages conv) as [msgs|e'] eqn:E;
      [|by exists e'].
    rewrite summary_loop_all. apply IH.
    apply elem_of_cons in Hin as [->|Hin]; [congruence|by exists c, e].
Qed.

Lemma session_bullets_length msgs : length (session_bullets msgs) <= 2.
Proof. unfold session_bullets. rewrite length_take. lia. Qed.

Lemma session_bullets_elem msgs (b : string) :
  b ∈ session_bullets msgs ->
  ∃ msg, msg ∈ msgs ∧ role msg = "user"
         ∧ b = "- User mentioned: " +:+ Py.take 80 (content msg) +:+ "...".
Proof.
  unfold session_bullets. intros H%subseteq_take.
  apply list_elem_of_In, in_map_iff in H as (msg & <- & H%list_elem_of_In).
  apply list_elem_of_filter in H as [Hu H%subseteq_take].
  rewrite elem_of_reverse in H. exists msg. repeat split; done.
Qed.

Lemma occurs_app_l (w a b : string) : occurs w a -> occurs w (a +:+ b).
Proof.
  intros (x & y & ->). exists x, (y +:+ b). by rewrite !sapp_assoc.
Qed.

Lemma occurs_app_r (w a b : string) : occurs w b -> occurs w (a +:+ b).
Proof.
  intros (x & y & ->). exists (a +:+ x), y. by rewrite !sapp_assoc.
Qed.

Lemma occurs_concat (w x : string) (xs : list string) :
  x ∈ xs -> occurs w x -> occurs w (concat_strings xs).
Proof.
  induction xs as [|y xs IH]; intros Hin Hw; [by apply elem_of_nil in Hin|].
  simpl. apply elem_of_cons in Hin as [->|Hin].
  - by apply occurs_app_l.
  - by apply occurs_app_r, IH.
Qed.

Lemma session_block_label msgs :
  session_bullets msgs ≠ [] -> occurs "Previous session:" (session_block msgs).
Proof.
  unfold session_block. destruct (session_bullets msgs) as [|b bs]; [done|].
  intros _. by exists Py.nl, (Py.nl +:+ Py.join Py.nl (b :: bs)).
Qed.

Lemma concat_blocks_empty (msgss : list (list Message)) :
  (∀ msgs, msgs ∈ msgss -> session_bullets msgs = []) ->
  concat_strings (map session_block msgss) = "".
Proof.
  induction msgss as [|msgs msgss IH]; intros H; [done|]. simpl.
  rewrite IH by (intros m Hm; apply H; by right).
  unfold session_block. rewrite (H msgs) by by left. done.
Qed.

End MemorySummarizer.

(** C3, as stated, fails twice.  With one stored conversation holding the
    single user message [hi] (2 characters, not longer than 80) the bullet
    is [- User mentioned: hi...]: the marker is appended whatever the
    length.  With one stored conversation holding only an assistant message
    the output, although there is a conversation, does not contain the
    label [Previous session:]. *)
Lemma memory_context_marker_and_label :
  Py.chars "hi" <= 80 ∧
  build_memory_context Sample.no_json "p" Sample.short_db None
  = memory_header +:+ Py.nl +:+ "Previous session:" +:+ Py.nl
    +:+ "- User mentioned: hi..." +:+ memory_footer ∧
  get_persona_conversations Sample.assistant_only_db "p" None 3
  = Ok [{| conv_id := 1;
           messages := MessagesList [Sample.assistant_says "hello"] |}] ∧
  Py.contains "Previous session:"
    (build_memory_context Sample.no_json "p" Sample.assistant_only_db None) = false.
Proof.
  split; [vm_compute; lia|]. split; [vm_compute; reflexivity|].
  split; vm_compute; reflexivity.
Qed.

(** C3, amended: when storage returns no conversation the recall string is
    empty.  When it returns at least one conversation (and their messages
    decode), the recall string is the fixed header, then one block per
    conversation that has a user message among its last 4 messages, then the
    fixed closing sentence; a block is the label [Previous session:] and at
    most 2 bullets; there are at most 3 blocks when storage honours the
    limit of 3; each bullet holds the first 80 characters of a user
    message's content (in the code, between [- User mentioned: ] and the
    marker [...]); the bullets of a session are its two most recent user
    messages among its last 4 messages, most recent first.  The label occurs
    in the output when some conversation has a bullet, and the output is
    header and closing sentence alone when none has. *)
Theorem memory_context_shape (json_loads_messages : string -> result (list Message))
    (persona_name : string) (db : db_module) (user_id : option nat)
    (convs : list conversation) (msgss : list (list Message)) :
  get_persona_conversations db persona_name user_id 3 = Ok convs ->
  Forall2 (fun conv msgs => conv_messages json_loads_messages conv = Ok msgs)
          convs msgss ->
  let out := build_memory_context json_loads_messages persona_name db user_id in
  (convs = [] -> out = "") ∧
  (convs ≠ [] ->
     out = memory_header +:+ concat_strings (map session_block msgss)
           +:+ memory_footer) ∧
  (length convs <= 3 ->
     length (filter (fun msgs => session_bullets msgs ≠ []) msgss) <= 3) ∧
  (∀ msgs, msgs ∈ msgss ->
     session_bullets msgs
     = take 2 (map summary_point
                 (filter (fun msg => role msg = "user") (take 4 (reverse msgs))))
     ∧ length (session_bullets msgs) <= 2
     ∧ ∀ b, b ∈ session_bullets msgs ->
         ∃ msg, msg ∈ msgs ∧ role msg = "user"
                ∧ b = "- User mentioned: " +:+ Py.take 80 (content msg) +:+ "...") ∧
  ((∃ msgs, msgs ∈ msgss ∧ session_bullets msgs ≠ []) ->
     occurs "Previous session:" out) ∧
  (convs ≠ [] -> (∀ msgs, msgs ∈ msgss -> session_bullets msgs = []) ->
     out = memory_header +:+ memory_footer
     ∧ ¬ occurs "Previous session:" out).
Proof.
  intros Hdb Hdec. cbv zeta.
  assert (convs ≠ [] ->
          build_memory_context json_loads_messages persona_name db user_id
          = memory_header +:+ concat_strings (map session_block msgss)
            +:+ memory_footer) as Hout.
  { intros Hne. unfold build_memory_context, build_memory_context_body.
    rewrite Hdb. unfold mbind, result_bind, rbind.
    destruct convs as [|conv convs]; [done|]. simpl negb. cbv iota.
    rewrite (conversations_loop_blocks _ _ _ _ Hdec).
    by rewrite PyFacts.sapp_assoc. }
  split; [|split; [done|split; [|split; [|split]]]].
  - intros ->. unfold build_memory_context, build_memory_context_body.
    by rewrite Hdb.
  - intros Hlen. apply Forall2_length in Hdec.
    pose proof (length_filter (fun msgs => session_bullets msgs ≠ []) msgss). lia.
  - intros msgs _. split; [done|].
    split; [apply session_bullets_length|apply session_bullets_elem].
  - intros (msgs & Hin & Hb).
    assert (convs ≠ []) as Hne.
    { intros ->. apply Forall2_nil_inv_l in Hdec as ->.
      by apply elem_of_nil in Hin. }
    rewrite (Hout Hne). apply occurs_app_r, occurs_app_l.
    apply (occurs_concat _ (session_block msgs)).
    + apply list_elem_of_In, in_map, list_elem_of_In, Hin.
    + by apply session_block_label.
  - intros Hne Hnone. rewrite (Hout Hne).
    rewrite (concat_blocks_empty _ Hnone). split; [done|].
    intros H%PyFacts.contains_spec. vm_compute in H. discriminate H.
Qed.

Lemma memory_context_shape_witness :
  build_memory_context Sample.no_json "p" Sample.chat_db None
  = memory_header
    +:+ concat_strings
          (map session_block
             [[Sample.user_says "one"; Sample.user_says "two";
               Sample.assistant_says "ok"; Sample.user_says "three";
               Sample.user_says "four"];
              [Sample.assistant_says "hello"]])
    +:+ memory_footer.
Proof.
  refine (proj1 (proj2 (memory_context_shape Sample.no_json "p" Sample.chat_db None
                          _ _ _ _)) _).
  - reflexivity.
  - repeat constructor.
  - discriminate.
Defined.

(** C7: the memory summary never raises.  For every input, an error of the
    storage query, a conversation whose stored messages do not decode, and
    any other exception raised while the summary is built, all give the
    empty recall string; otherwise the string built is returned. *)
Theorem memory_context_never_raises
    (json_loads_messages : string -> result (list Message))
    (persona_name : string) (db : db_module) (user_id : option nat) :
  let out := build_memory_context json_loads_messages persona_name db user_id in
  (∀ e, get_persona_conversations db persona_name user_id 3 = Raise e ->
        out = "") ∧
  (∀ convs,
     get_persona_conversations db persona_name user_id 3 = Ok convs ->
     (∃ conv e, conv ∈ convs ∧ conv_messages json_loads_messages conv = Raise e) ->
     out = "") ∧
  (∀ e, build_memory_context_body json_loads_messages persona_name db user_id
        = Raise e -> out = "") ∧
  (∀ s, build_memory_context_body json_loads_messages persona_name db user_id
        = Ok s -> out = s).
Proof.
  cbv zeta. unfold build_memory_context.
  split; [|split; [|split]].
  - intros e He. unfold build_memory_context_body. by rewrite He.
  - intros convs Hdb Hbad. unfold build_memory_context_body. rewrite Hdb.
    unfold mbind, result_bind, rbind.
    destruct convs as [|conv convs].
    + destruct Hbad as (c & _ & Hin & _). by apply elem_of_nil in Hin.
    + simpl negb. cbv iota.
      destruct (conversations_loop_raises json_loads_messages _ memory_header Hbad)
        as [e ->].
      done.
  - by intros e ->.
  - by intros s ->.
Qed.

Lemma memory_context_never_raises_witness :
  build_memory_context Sample.no_json "p" Sample.failing_db None = "" ∧
  build_memory_context Sample.no_json "p" Sample.corrupt_db None = "".
Proof.
  split.
  - apply (proj1 (memory_context_never_raises Sample.no_json "p"
                    Sample.failing_db None) (OtherError "connection refused")).
    reflexivity.
  - apply (proj1 (proj2 (memory_context_never_raises Sample.no_json "p"
                           Sample.corrupt_db None))
             [{| conv_id := 1; messages := MessagesText "not json" |}]).
    + reflexivity.
    + exists {| conv_id := 1; messages := MessagesText "not json" |},
             (JSONDecodeError "Expecting value").
      split; [by left|reflexivity].
Defined.

(** * Properties of the conversation analysis *)

Section ConversationAnalyzer.
Import PyFacts.
Variable json_loads_analysis : string -> result analysis_dict.

(** Passing over [k] characters of a matched separator. *)
Lemma split_go_skip (sep : string) (k : nat) (cur t : string) :
  Py.split_go sep k cur t = Py.split_go sep 0 cur (Py.drop k t).
Proof.
  revert k. induction t as [|c t IH]; intros [|k]; simpl; [done..|apply IH].
Qed.

(** The first piece of a scan is the text before the first separator. *)
Lemma split_go_until (sep t cur : string) :
  ∃ rest, Py.split_go sep 0 cur t = (cur +:+ until sep t) :: rest.
Proof.
  revert cur. induction t as [|c t IH]; intros cur.
  - exists []. simpl. by rewrite sapp_nil_r.
  - simpl. destruct (Py.startswith sep (String c t)).
    + eexists. by rewrite sapp_nil_r.
    + destruct (IH (cur +:+ String c "")) as [rest ->].
      exists rest. by rewrite sapp_assoc.
Qed.

(** A text that opens with the separator splits into the empty piece, then
    the text up to the next separator: index 1 exists. *)
Lemma split_opening (a : ascii) (sep' t : string) :
  Py.startswith (String a sep') t = true ->
  ∃ rest, Py.split (String a sep') t
          = "" :: until (String a sep') (Py.drop (Py.len (String a sep')) t) :: rest.
Proof.
  intros H. unfold Py.split. destruct t as [|c t]; [done|].
  cbn [Py.split_go]. rewrite H. rewrite split_go_skip.
  destruct (split_go_until (String a sep')
              (Py.drop (Py.len (String a sep') - 1) t) "") as [rest ->].
  exists rest. simpl. by rewrite Nat.sub_0_r, sapp_nil_l.
Qed.

(** The clean-up of the source never raises and computes the cleaned text. *)
Lemma clean_response_cleaned (t : string) :
  clean_response t = Ok (cleaned_text t).
Proof.
  unfold clean_response, cleaned_text. cbv zeta.
  destruct (Py.startswith "```" (Py.strip_ws t)) eqn:E; [|done].
  destruct (split_opening _ _ _ E) as [rest Hs].
  change (Py.len "```") with 3 in Hs.
  remember (until "```" (Py.drop 3 (Py.strip_ws t))) as inner eqn:Hi.
  rewrite Hs. unfold mbind, result_bind, rbind, pos_index.
  change (("" :: inner :: rest) !! 1) with (Some inner). cbv beta iota.
  by destruct (Py.startswith "json" inner).
Qed.

(** Below ten messages: the explicit failure, and the log is untouched. *)
Lemma analyze_too_few persona_name db c user_id msgs log :
  get_all_persona_messages db persona_name user_id = Ok msgs ->
  length msgs < 10 ->
  analyze_conversation_patterns json_loads_analysis persona_name db c user_id log
  = (Ok (failure too_few_message), log).
Proof.
  intros Hdb Hlen.
  unfold analyze_conversation_patterns, try_except,
    analyze_conversation_patterns_body.
  unfold mbind at 1. unfold M_bind at 1. unfold lift at 1. rewrite Hdb.
  by rewrite decide_True.
Qed.

(** From ten messages on: the body issues exactly one call, with the prompt
    of the history, and continues with the client's answer. *)
Lemma analyze_body_calls persona_name db c user_id msgs log :
  get_all_persona_messages db persona_name user_id = Ok msgs ->
  10 <= length msgs ->
  analyze_conversation_patterns_body json_loads_analysis persona_name db c user_id log
  = (match generate_content c "gemini-2.0-flash-exp" (prompt_for persona_name msgs) with
     | Ok response =>
         if text_truthy response
         then rbind (clean_response (default "" (text response)))
                    (parse_analysis json_loads_analysis)
         else Ok (failure "Unable to generate analysis at this time.")
     | Raise e => Raise e
     end,
     log ++ [{| call_model := "gemini-2.0-flash-exp";
                call_contents := prompt_for persona_name msgs |}]).
Proof.
  intros Hdb Hlen. unfold analyze_conversation_patterns_body.
  unfold mbind at 1. unfold M_bind at 1. unfold lift at 1. rewrite Hdb.
  rewrite decide_False by lia. cbv zeta. fold (prompt_for persona_name msgs).
  unfold mbind at 1. unfold M_bind at 1. unfold call_generate_content.
  destruct (generate_content c _ _) as [response|e]; [|done].
  destruct (text_truthy response); [|done].
  unfold mbind, M_bind, lift.
  by destruct (clean_response _).
Qed.

End ConversationAnalyzer.

(** C4: for every stored history, if fewer than 10 messages are retrieved
    the analysis returns success=false with its need-at-least message (the
    text [Need at least 5 conversation exchanges (10 messages) to analyze
    patterns.], which contains [need at least] up to the case of its first
    letter) and issues no completion call; if 10 or more are retrieved it
    issues the completion call, exactly once and with the analysis prompt
    of that history, and returns a record. *)
Theorem analysis_threshold (json_loads_analysis : string -> result analysis_dict)
    (persona_name : string) (db : db_module) (c : client) (user_id : option nat)
    (msgs : list Message) (log : list call) :
  get_all_persona_messages db persona_name user_id = Ok msgs ->
  (length msgs < 10 ->
     analyze_conversation_patterns json_loads_analysis persona_name db c user_id log
     = (Ok (failure too_few_message), log)
     ∧ success (failure too_few_message) = false
     ∧ message (failure too_few_message)
       = Some "Need at least 5 conversation exchanges (10 messages) to analyze patterns."
     ∧ occurs "Need at least" too_few_message
     ∧ occurs "need at least" (Py.lower too_few_message)) ∧
  (10 <= length msgs ->
     ∃ r, analyze_conversation_patterns json_loads_analysis persona_name db c
            user_id log
          = (Ok r, log ++ [{| call_model := "gemini-2.0-flash-exp";
                              call_contents := prompt_for persona_name msgs |}])).
Proof.
  intros Hdb. split; intros Hlen.
  - split; [by apply (analyze_too_few _ _ _ _ _ msgs)|].
    split; [done|]. split; [done|]. split.
    + by exists "", " 5 conversation exchanges (10 messages) to analyze patterns.".
    + by exists "", " 5 conversation exchanges (10 messages) to analyze patterns.".
  - unfold analyze_conversation_patterns, try_except.
    rewrite (analyze_body_calls _ _ _ _ _ msgs) by done.
    destruct (generate_content c _ _) as [response|e]; [|by eexists].
    destruct (text_truthy response); [|by eexists].
    destruct (rbind _ _); by eexists.
Qed.

Lemma analysis_threshold_witness :
  analyze_conversation_patterns Sample.no_json "p" Sample.nine_db
    (Sample.answering Sample.fenced_answer) None []
  = (Ok (failure too_few_message), []) ∧
  ∃ r, analyze_conversation_patterns Sample.no_json "p" Sample.ten_db
         (Sample.answering Sample.fenced_answer) None []
       = (Ok r, [] ++ [{| call_model := "gemini-2.0-flash-exp";
                          call_contents :=
                            prompt_for "p" (replicate 10 (Sample.user_says "hi")) |}]).
Proof.
  split.
  - refine (proj1 (proj1 (analysis_threshold Sample.no_json "p" Sample.nine_db
                            (Sample.answering Sample.fenced_answer) None
                            (replicate 9 (Sample.user_says "hi")) [] _) _)).
    + reflexivity.
    + simpl. lia.
  - refine (proj2 (analysis_threshold Sample.no_json "p" Sample.ten_db
                     (Sample.answering Sample.fenced_answer) None
                     (replicate 10 (Sample.user_says "hi")) [] _) _).
    + reflexivity.
    + simpl. lia.
Defined.

(** C5, as stated, fails on "never": the parser can fail otherwise than by
    a decode error.  With a history of 10 messages and the non-empty
    completion text of 100000 opening brackets, a [json.loads] that hits
    the recursion limit makes the analysis return success=false with a
    message that begins [Error analyzing patterns: maximum recursion depth
    exceeded]. *)
Lemma parser_error_reported_as_failure :
  MoreSamples.nested_answer ≠ "" ∧
  MoreSamples.recursion_json (cleaned_text MoreSamples.nested_answer)
  = Raise (OtherError
             "maximum recursion depth exceeded while decoding a JSON array from a unicode string") ∧
  (analyze_conversation_patterns MoreSamples.recursion_json "p" Sample.ten_db
     (Sample.answering MoreSamples.nested_answer) None []).1
  = Ok {| success := false;
          message := Some "Error analyzing patterns: maximum recursion depth exceeded while decoding a JSON array from a unicode string";
          analysis := None |}.
Proof.
  split; [discriminate|]. split; [reflexivity|]. vm_compute. reflexivity.
Qed.

(** C5, amended: for every non-empty completion text returned for a history
    of at least 10 messages, the text is cleaned (surrounding white space
    stripped, a leading code fence and a language tag [json] after it
    removed) without error; when the cleaned text parses, the result is
    success=true with the parsed fields; when parsing fails with a JSON
    decode error, the result is success=true with [raw_response] holding
    the cleaned text verbatim, so a decode error is never reported as
    success=false; any other exception of the parser is reported as
    success=false with the message [Error analyzing patterns: ] and the
    error text. *)
Theorem analysis_parse_or_fallback
    (json_loads_analysis : string -> result analysis_dict)
    (persona_name : string) (db : db_module) (c : client) (user_id : option nat)
    (msgs : list Message) (t : string) (log : list call) :
  get_all_persona_messages db persona_name user_id = Ok msgs ->
  10 <= length msgs ->
  generate_content c "gemini-2.0-flash-exp" (prompt_for persona_name msgs)
  = Ok {| text := Some t |} ->
  t ≠ "" ->
  let r := (analyze_conversation_patterns json_loads_analysis persona_name db c
              user_id log).1 in
  clean_response t = Ok (cleaned_text t) ∧
  (∀ a, json_loads_analysis (cleaned_text t) = Ok a ->
        r = Ok (parsed a) ∧ success (parsed a) = true
        ∧ analysis (parsed a) = Some a) ∧
  (∀ m, json_loads_analysis (cleaned_text t) = Raise (JSONDecodeError m) ->
        r = Ok (raw_fallback (cleaned_text t))
        ∧ success (raw_fallback (cleaned_text t)) = true
        ∧ (raw_response <$> analysis (raw_fallback (cleaned_text t)))
          = Some (Some (cleaned_text t))) ∧
  (∀ e, json_loads_analysis (cleaned_text t) = Raise e ->
        (∀ m, e ≠ JSONDecodeError m) ->
        r = Ok (failure ("Error analyzing patterns: " +:+ exn_str e))
        ∧ success (failure ("Error analyzing patterns: " +:+ exn_str e)) = false).
Proof.
  intros Hdb Hlen Hgen Ht. cbv zeta.
  split; [apply clean_response_cleaned|].
  assert ((analyze_conversation_patterns json_loads_analysis persona_name db c
             user_id log).1
          = match parse_analysis json_loads_analysis (cleaned_text t) with
            | Ok r => Ok r
            | Raise e => Ok (failure ("Error analyzing patterns: " +:+ exn_str e))
            end) as E.
  { unfold analyze_conversation_patterns, try_except.
    rewrite (analyze_body_calls _ _ _ _ _ msgs) by done.
    rewrite Hgen. unfold text_truthy. simpl text.
    destruct t as [|ch t]; [done|]. simpl Py.truthy. cbv iota.
    simpl default. rewrite clean_response_cleaned. unfold rbind.
    by destruct (parse_analysis _ _). }
  rewrite E. unfold parse_analysis. split; [|split].
  - intros a ->. by repeat split.
  - intros m ->. by repeat split.
  - intros e -> Hne. destruct e as [m|m|m]; [by destruct (Hne m)|done..].
Qed.

Lemma analysis_parse_or_fallback_witness :
  (analyze_conversation_patterns Sample.any_json "p" Sample.ten_db
     (Sample.answering Sample.fenced_answer) None []).1
  = Ok (parsed Sample.empty_analysis) ∧
  (analyze_conversation_patterns Sample.no_json "p" Sample.ten_db
     (Sample.answering Sample.fenced_answer) None []).1
  = Ok (raw_fallback (cleaned_text Sample.fenced_answer)) ∧
  (analyze_conversation_patterns MoreSamples.recursion_json "p" Sample.ten_db
     (Sample.answering MoreSamples.nested_answer) None []).1
  = Ok (failure ("Error analyzing patterns: "
                 +:+ "maximum recursion depth exceeded while decoding a JSON array from a unicode string")).
Proof.
  split; [|split].
  - refine (proj1 (proj1 (proj2 (analysis_parse_or_fallback Sample.any_json "p"
                                   Sample.ten_db
                                   (Sample.answering Sample.fenced_answer) None
                                   (replicate 10 (Sample.user_says "hi"))
                                   Sample.fenced_answer [] _ _ _ _))
                     Sample.empty_analysis _)).
    + reflexivity.
    + simpl. lia.
    + reflexivity.
    + discriminate.
    + reflexivity.
  - refine (proj1 (proj1 (proj2 (proj2 (analysis_parse_or_fallback Sample.no_json
                                          "p" Sample.ten_db
                                          (Sample.answering Sample.fenced_answer)
                                          None
                                          (replicate 10 (Sample.user_says "hi"))
                                          Sample.fenced_answer [] _ _ _ _)))
                     "Expecting value" _)).
    + reflexivity.
    + simpl. lia.
    + reflexivity.
    + discriminate.
    + reflexivity.
  - refine (proj1 (proj2 (proj2 (proj2 (analysis_parse_or_fallback
                                          MoreSamples.recursion_json "p"
                                          Sample.ten_db
                                          (Sample.answering MoreSamples.nested_answer)
                                          None
                                          (replicate 10 (Sample.user_says "hi"))
                                          MoreSamples.nested_answer [] _ _ _ _)))
                     (OtherError
                        "maximum recursion depth exceeded while decoding a JSON array from a unicode string")
                     _ _)).
    + reflexivity.
    + simpl. lia.
    + reflexivity.
    + discriminate.
    + reflexivity.
    + discriminate.
Defined.

(** * Further properties of the profile mutation *)

Section ProfileMutatorMore.
Import Py PyFacts.
Implicit Types (P : gmap string string).

Lemma add_learned_lookup_eq key s P :
  add_learned key s P !! key
  = match s with
    | Some n =>
        if truthy n && negb (contains n (dict_get P key ""))
        then Some (strip ", " (dict_get P key "" +:+ ", " +:+ n))
        else P !! key
    | None => P !! key
    end.
Proof.
  unfold add_learned. destruct s as [n|]; [|done].
  destruct (truthy n); [|done]. simpl.
  destruct (negb _); [|done]. by rewrite lookup_insert_eq.
Qed.

Lemma add_learned_is_Some key s P k :
  is_Some (P !! k) -> is_Some (add_learned key s P !! k).
Proof.
  intros H. destruct (decide (k = key)) as [->|Hk].
  - rewrite add_learned_lookup_eq. destruct s as [n|]; [|done].
    by destruct (truthy n && negb _).
  - by rewrite add_learned_lookup_ne.
Qed.

(** The value of one of the three fields after the whole mutation is the
    value after its own block. *)
Lemma apply_learning_lookup_field P A a key s :
  analysis A = Some a ->
  (key, s) ∈ learned_fields a ->
  apply_learning_to_persona P A !! key = add_learned key s P !! key.
Proof.
  intros HA Hin. unfold apply_learning_to_persona. rewrite HA.
  unfold learned_fields in Hin.
  repeat (apply elem_of_cons in Hin as [Hin|Hin]; [inversion Hin; subst; clear Hin|]).
  - rewrite (add_learned_lookup_ne "speaking_style") by done.
    by rewrite (add_learned_lookup_ne "behaviors") by done.
  - rewrite (add_learned_lookup_ne "speaking_style") by done.
    rewrite !add_learned_lookup_eq. unfold dict_get.
    by rewrite (add_learned_lookup_ne "personality") by done.
  - rewrite !add_learned_lookup_eq. unfold dict_get.
    rewrite (add_learned_lookup_ne "behaviors") by done.
    by rewrite (add_learned_lookup_ne "personality") by done.
  - by apply elem_of_nil in Hin.
Qed.

Lemma lstrip_kept (chars : string) (c : ascii) (r : string) :
  mem_char c chars = false -> lstrip chars (String c r) = String c r.
Proof. intros H. simpl. by rewrite H. Qed.

Lemma lstrip_separator (s : string) : lstrip ", " (", " +:+ s) = lstrip ", " s.
Proof. reflexivity. Qed.

Lemma contains_empty_hay (s : string) : s ≠ "" -> contains s "" = false.
Proof. by destruct s. Qed.

(** The new value when a clean suggestion is appended to a clean value. *)
Lemma strip_joined_clean (cur s : string) :
  cur ≠ "" -> strip ", " cur = cur -> s ≠ "" -> strip ", " s = s ->
  strip ", " (cur +:+ ", " +:+ s) = cur +:+ ", " +:+ s.
Proof.
  intros Hc Hcs Hs Hss. rewrite strip_joined by done.
  destruct (strip_fixed _ _ Hcs Hc) as ((c & r & -> & Hm) & _).
  rewrite sapp_cons, lstrip_kept by done. by rewrite <- sapp_cons, sapp_assoc.
Qed.

Lemma dict_get_lookup P key (v : string) :
  P !! key = Some v -> dict_get P key "" = v.
Proof. unfold dict_get. by intros ->. Qed.

End ProfileMutatorMore.

(** X1: the mutation never removes a key of the profile, and the only keys
    it can add are [personality], [behaviors] and [speaking_style]. *)
Theorem apply_learning_keeps_keys (P : gmap string string) (A : learning_analysis) :
  (∀ k, is_Some (P !! k) -> is_Some (apply_learning_to_persona P A !! k)) ∧
  (∀ k, is_Some (apply_learning_to_persona P A !! k) ->
        is_Some (P !! k) ∨ k ∈ ["personality"; "behaviors"; "speaking_style"]).
Proof.
  split.
  - intros k Hk. unfold apply_learning_to_persona.
    destruct (analysis A) as [a|]; [|done].
    by do 3 apply add_learned_is_Some.
  - intros k Hk.
    destruct (decide (k ∈ ["personality"; "behaviors"; "speaking_style"]))
      as [Hin|Hin]; [by right|left].
    by rewrite apply_learning_lookup_other in Hk.
Qed.

Lemma apply_learning_keeps_keys_witness :
  is_Some (apply_learning_to_persona Sample.kind_profile Sample.padded_learning
             !! "background").
Proof.
  apply (proj1 (apply_learning_keeps_keys Sample.kind_profile Sample.padded_learning)).
  by eexists.
Defined.

(** X2: when a field holds a non-empty value without leading or trailing
    comma or space, and the suggestion for it is non-empty, has no leading
    or trailing comma or space and does not occur in the value, the field
    becomes the old value, a comma and a space, and the suggestion. *)
Theorem apply_learning_appends (P : gmap string string) (A : learning_analysis)
    (a : analysis_dict) (key cur s : string) :
  analysis A = Some a ->
  (key, Some s) ∈ learned_fields a ->
  P !! key = Some cur ->
  cur ≠ "" -> Py.strip ", " cur = cur ->
  s ≠ "" -> Py.strip ", " s = s ->
  Py.contains s cur = false ->
  apply_learning_to_persona P A !! key = Some (cur +:+ ", " +:+ s).
Proof.
  intros HA Hin HP Hc Hcs Hs Hss Hno.
  rewrite (apply_learning_lookup_field _ _ _ _ _ HA Hin), add_learned_lookup_eq.
  rewrite (dict_get_lookup _ _ _ HP), Hno.
  rewrite (proj2 (PyFacts.truthy_true s) Hs). simpl.
  by rewrite strip_joined_clean.
Qed.

Lemma apply_learning_appends_witness :
  apply_learning_to_persona Sample.kind_profile Sample.brave_learning !! "personality"
  = Some ("kind" +:+ ", " +:+ "brave").
Proof.
  refine (apply_learning_appends Sample.kind_profile Sample.brave_learning
            _ "personality" "kind" "brave" _ _ _ _ _ _ _ _).
  - reflexivity.
  - by left.
  - reflexivity.
  - discriminate.
  - reflexivity.
  - discriminate.
  - reflexivity.
  - reflexivity.
Defined.

(** X3: when a field is missing from the profile or holds the empty text,
    a non-empty suggestion for it becomes the field's value, stripped of
    leading and trailing commas and spaces and without any separator. *)
Theorem apply_learning_fills_empty_field (P : gmap string string)
    (A : learning_analysis) (a : analysis_dict) (key s : string) :
  analysis A = Some a ->
  (key, Some s) ∈ learned_fields a ->
  s ≠ "" ->
  P !! key = None ∨ P !! key = Some "" ->
  apply_learning_to_persona P A !! key = Some (Py.strip ", " s).
Proof.
  intros HA Hin Hs HP.
  rewrite (apply_learning_lookup_field _ _ _ _ _ HA Hin), add_learned_lookup_eq.
  assert (dict_get P key "" = "") as -> by (unfold dict_get; by destruct HP as [-> | ->]).
  rewrite (proj2 (PyFacts.truthy_true s) Hs), contains_empty_hay by done.
  simpl andb. cbv iota. f_equal.
Qed.

Lemma apply_learning_fills_empty_field_witness :
  apply_learning_to_persona Sample.kind_profile MoreSamples.behavior_learning
    !! "behaviors" = Some (Py.strip ", " " asks questions").
Proof.
  refine (apply_learning_fills_empty_field Sample.kind_profile
            MoreSamples.behavior_learning _ "behaviors" " asks questions" _ _ _ _).
  - reflexivity.
  - right. by left.
  - discriminate.
  - by left.
Defined.

(** X4: after the mutation, a non-empty suggestion without leading or
    trailing comma or space occurs in the field it was suggested for,
    whatever the profile was. *)
Theorem apply_learning_contains_suggestion (P : gmap string string)
    (A : learning_analysis) (a : analysis_dict) (key s : string) :
  analysis A = Some a ->
  (key, Some s) ∈ learned_fields a ->
  s ≠ "" -> Py.strip ", " s = s ->
  occurs s (dict_get (apply_learning_to_persona P A) key "").
Proof.
  intros HA Hin Hs Hss. unfold dict_get at 1.
  rewrite (apply_learning_lookup_field _ _ _ _ _ HA Hin), add_learned_lookup_eq.
  rewrite (proj2 (PyFacts.truthy_true s) Hs).
  destruct (Py.contains s (dict_get P key "")) eqn:Hc; simpl.
  - by apply PyFacts.contains_spec.
  - rewrite PyFacts.strip_joined by done.
    exists (Py.lstrip ", " (dict_get P key "" +:+ ", ")), "".
    by rewrite PyFacts.sapp_nil_r.
Qed.

Lemma apply_learning_contains_suggestion_witness :
  occurs "brave"
    (dict_get (apply_learning_to_persona Sample.kind_profile Sample.brave_learning)
       "personality" "").
Proof.
  refine (apply_learning_contains_suggestion Sample.kind_profile
            Sample.brave_learning _ "personality" "brave" _ _ _ _).
  - reflexivity.
  - by left.
  - discriminate.
  - reflexivity.
Defined.

(** X5: an analysis whose suggestions are all absent or empty leaves the
    profile unchanged; in particular the raw-text fallback record does. *)
Theorem apply_learning_ignores_empty (P : gmap string string)
    (A : learning_analysis) (a : analysis_dict) :
  analysis A = Some a ->
  (∀ key s, (key, Some s) ∈ learned_fields a -> s = "") ->
  apply_learning_to_persona P A = P
  ∧ ∀ t, apply_learning_to_persona P (raw_fallback t) = P.
Proof.
  intros HA Hempty. split; [|done].
  unfold apply_learning_to_persona. rewrite HA.
  assert (∀ key s Q, (key, s) ∈ learned_fields a -> add_learned key s Q = Q) as Hid.
  { intros key [s|] Q Hin; [|done]. by rewrite (Hempty _ _ Hin). }
  rewrite !Hid; [done|unfold learned_fields..].
  - by left.
  - right. by left.
  - right. right. by left.
Qed.

Lemma apply_learning_ignores_empty_witness :
  apply_learning_to_persona Sample.kind_profile MoreSamples.blank_learning
  = Sample.kind_profile.
Proof.
  refine (proj1 (apply_learning_ignores_empty Sample.kind_profile
                   MoreSamples.blank_learning _ _ _)).
  - reflexivity.
  - intros key s Hin. unfold learned_fields in Hin. simpl in Hin.
    repeat (apply elem_of_cons in Hin as [Hin|Hin]; [by inversion Hin|]).
    by apply elem_of_nil in Hin.
Defined.

(** * Further properties of the conversation analysis *)

Section ConversationAnalyzerMore.
Variable json_loads_analysis : string -> result analysis_dict.

Lemma analyze_storage_error persona_name db c user_id e log :
  get_all_persona_messages db persona_name user_id = Raise e ->
  analyze_conversation_patterns json_loads_analysis persona_name db c user_id log
  = (Ok (failure ("Error analyzing patterns: " +:+ exn_str e)), log).
Proof.
  intros Hdb.
  unfold analyze_conversation_patterns, try_except,
    analyze_conversation_patterns_body.
  unfold mbind at 1. unfold M_bind at 1. unfold lift at 1. by rewrite Hdb.
Qed.

(** From ten messages on, the record returned in terms of what the client
    and the parser answer. *)
Lemma analyze_enough persona_name db c user_id msgs log :
  get_all_persona_messages db persona_name user_id = Ok msgs ->
  10 <= length msgs ->
  analyze_conversation_patterns json_loads_analysis persona_name db c user_id log
  = (Ok match generate_content c "gemini-2.0-flash-exp"
                (prompt_for persona_name msgs) with
        | Raise e => failure ("Error analyzing patterns: " +:+ exn_str e)
        | Ok response =>
            if text_truthy response then
              match json_loads_analysis
                      (cleaned_text (default "" (text response))) with
              | Ok a => parsed a
              | Raise (JSONDecodeError _) =>
                  raw_fallback (cleaned_text (default "" (text response)))
              | Raise e => failure ("Error analyzing patterns: " +:+ exn_str e)
              end
            else failure "Unable to generate analysis at this time."
        end,
     log ++ [{| call_model := "gemini-2.0-flash-exp";
                call_contents := prompt_for persona_name msgs |}]).
Proof.
  intros Hdb Hlen. unfold analyze_conversation_patterns, try_except.
  rewrite (analyze_body_calls _ _ _ _ _ msgs) by done.
  destruct (generate_content c _ _) as [response|e]; [|done].
  destruct (text_truthy response); [|done].
  rewrite clean_response_cleaned. unfold rbind, parse_analysis.
  destruct (json_loads_analysis _) as [a|[m|m|m]]; done.
Qed.

End ConversationAnalyzerMore.

(** X6: the analysis never raises and issues at most one completion call;
    the record it returns is either a success with an analysis payload and
    no message, or a failure with a message and no payload, never both. *)
Theorem analysis_always_returns
    (json_loads_analysis : string -> result analysis_dict)
    (persona_name : string) (db : db_module) (c : client) (user_id : option nat)
    (log : list call) :
  ∃ r log',
    analyze_conversation_patterns json_loads_analysis persona_name db c user_id log
    = (Ok r, log') ∧
    (log' = log ∨ ∃ one, log' = log ++ [one]) ∧
    ((success r = true ∧ is_Some (analysis r) ∧ message r = None)
     ∨ (success r = false ∧ analysis r = None ∧ is_Some (message r))).
Proof.
  destruct (get_all_persona_messages db persona_name user_id) as [msgs|e] eqn:Hdb.
  - destruct (decide (length msgs < 10)) as [Hlen|Hlen].
    + eexists _, _. split; [by apply (analyze_too_few _ _ _ _ _ msgs)|].
      split; [by left|]. right. unfold failure. simpl. by eauto.
    + eexists _, _. split; [apply (analyze_enough _ _ _ _ _ msgs); [done|lia]|].
      split; [right; by eexists|].
      destruct (generate_content c _ _) as [response|e];
        [|right; simpl; by eauto].
      destruct (text_truthy response); [|right; simpl; by eauto].
      destruct (json_loads_analysis _) as [a|[m|m|m]];
        first [left; simpl; by eauto | right; simpl; by eauto].
  - eexists _, _. split; [by apply analyze_storage_error|].
    split; [by left|]. right. simpl. by eauto.
Qed.

(** X7: the failure modes of the analysis.  An error of the storage query
    gives a failure whose message is [Error analyzing patterns: ] and the
    error text, without any completion call.  With at least 10 messages, an
    error of the completion call gives the same kind of message; an answer
    without text, or with empty text, gives the message
    [Unable to generate analysis at this time.]. *)
Theorem analysis_failure_modes
    (json_loads_analysis : string -> result analysis_dict)
    (persona_name : string) (db : db_module) (c : client) (user_id : option nat)
    (log : list call) :
  let run := analyze_conversation_patterns json_loads_analysis persona_name db c
               user_id log in
  (∀ e, get_all_persona_messages db persona_name user_id = Raise e ->
        run = (Ok (failure ("Error analyzing patterns: " +:+ exn_str e)), log)) ∧
  (∀ msgs, get_all_persona_messages db persona_name user_id = Ok msgs ->
     10 <= length msgs ->
     (∀ e, generate_content c "gemini-2.0-flash-exp" (prompt_for persona_name msgs)
           = Raise e ->
           run.1 = Ok (failure ("Error analyzing patterns: " +:+ exn_str e))) ∧
     (∀ response,
        generate_content c "gemini-2.0-flash-exp" (prompt_for persona_name msgs)
        = Ok response ->
        text response = None ∨ text response = Some "" ->
        run.1 = Ok (failure "Unable to generate analysis at this time."))).
Proof.
  cbv zeta. split.
  - intros e He. by apply analyze_storage_error.
  - intros msgs Hdb Hlen.
    rewrite (analyze_enough _ _ _ _ _ msgs) by done. simpl. split.
    + by intros e ->.
    + intros response -> Ht. unfold text_truthy.
      by destruct Ht as [-> | ->].
Qed.

Lemma analysis_failure_modes_witness :
  analyze_conversation_patterns Sample.no_json "p" Sample.failing_db
    MoreSamples.silent_client None []
  = (Ok (failure ("Error analyzing patterns: " +:+ "connection refused")), []) ∧
  (analyze_conversation_patterns Sample.no_json "p" Sample.ten_db
     MoreSamples.raising_client None []).1
  = Ok (failure ("Error analyzing patterns: " +:+ "quota exceeded")) ∧
  (analyze_conversation_patterns Sample.no_json "p" Sample.ten_db
     MoreSamples.silent_client None []).1
  = Ok (failure "Unable to generate analysis at this time.").
Proof.
  split; [|split].
  - refine (proj1 (analysis_failure_modes Sample.no_json "p" Sample.failing_db
                     MoreSamples.silent_client None [])
              (OtherError "connection refused") _).
    reflexivity.
  - refine (proj1 (proj2 (analysis_failure_modes Sample.no_json "p" Sample.ten_db
                            MoreSamples.raising_client None [])
                     (replicate 10 (Sample.user_says "hi")) _ _)
              (OtherError "quota exceeded") _).
    + reflexivity.
    + simpl. lia.
    + reflexivity.
  - refine (proj2 (proj2 (analysis_failure_modes Sample.no_json "p" Sample.ten_db
                            MoreSamples.silent_client None [])
                     (replicate 10 (Sample.user_says "hi")) _ _)
              {| text := None |} _ _).
    + reflexivity.
    + simpl. lia.
    + reflexivity.
    + by left.
Defined.

(** * Properties of the learning summary *)

Section LearningSummary.
Import PyFacts.

Lemma summary_list_app heading field (summary : string) :
  summary_list heading field summary
  = summary +:+ summary_list heading field "".
Proof.
  unfold summary_list. destruct field as [items|]; [|by rewrite sapp_nil_r].
  destruct (list_truthy items); [done|by rewrite sapp_nil_r].
Qed.

Lemma summary_text_app heading field (summary : string) :
  summary_text heading field summary
  = summary +:+ summary_text heading field "".
Proof.
  unfold summary_text. destruct field as [v|]; [done|by rewrite sapp_nil_r].
Qed.

(** The summary of a success record, section by section. *)
Lemma get_learning_summary_sections (la : learning_analysis) :
  success la = true ->
  get_learning_summary la
  = summary_heading
    +:+ summary_list "**Common Topics:**"
          (common_topics (default empty_dict (analysis la))) ""
    +:+ summary_list "**Successful Patterns:**"
          (successful_patterns (default empty_dict (analysis la))) ""
    +:+ summary_text "**Personality Growth:**"
          (suggested_personality_additions (default empty_dict (analysis la))) ""
    +:+ summary_text "**Behavior Evolution:**"
          (suggested_behavior_additions (default empty_dict (analysis la))) ""
    +:+ summary_text "**Speaking Style Refinement:**"
          (speaking_style_refinements (default empty_dict (analysis la))) ""
    +:+ match raw_response (default empty_dict (analysis la)) with
        | Some raw => Py.nl +:+ raw
        | None => ""
        end.
Proof.
  intros Hs. unfold get_learning_summary. rewrite Hs. simpl negb. cbv iota zeta.
  set (a := default empty_dict (analysis la)).
  rewrite (summary_text_app "**Speaking Style Refinement:**").
  rewrite (summary_text_app "**Behavior Evolution:**").
  rewrite (summary_text_app "**Personality Growth:**").
  rewrite (summary_list_app "**Successful Patterns:**").
  rewrite (summary_list_app "**Common Topics:**").
  destruct (raw_response a) as [raw|]; rewrite ?sapp_nil_r, !sapp_assoc; done.
Qed.

(** A failure record of the analysis carries its message. *)
Lemma analyze_failure_message
    (json_loads_analysis : string -> result analysis_dict)
    persona_name db c user_id log r log' :
  analyze_conversation_patterns json_loads_analysis persona_name db c user_id log
  = (Ok r, log') ->
  success r = false ->
  ∃ m, r = failure m.
Proof.
  destruct (get_all_persona_messages db persona_name user_id) as [msgs|e] eqn:Hdb.
  - destruct (decide (length msgs < 10)) as [Hlen|Hlen].
    + rewrite (analyze_too_few _ _ _ _ _ msgs) by done.
      intros [= <- _] _. by eexists.
    + rewrite (analyze_enough _ _ _ _ _ msgs) by (done || lia).
      intros [= <- _].
      destruct (generate_content c _ _) as [response|e]; [|by eexists].
      destruct (text_truthy response); [|by eexists].
      destruct (json_loads_analysis _) as [a|[m|m|m]];
        intros Hs; first [discriminate Hs | by eexists].
  - rewrite (analyze_storage_error _ _ _ _ _ e) by done.
    intros [= <- _] _. by eexists.
Qed.

End LearningSummary.

(** X8: whenever the analysis returns a failure record, the learning
    summary of that record is exactly its failure message; with fewer than
    10 stored messages the summary is the text
    [Need at least 5 conversation exchanges (10 messages) to analyze
    patterns.].  A failure record without a message is summarised as
    [Analysis failed]. *)
Theorem learning_summary_of_failure
    (json_loads_analysis : string -> result analysis_dict)
    (persona_name : string) (db : db_module) (c : client) (user_id : option nat)
    (log log' : list call) (r : learning_analysis) :
  analyze_conversation_patterns json_loads_analysis persona_name db c user_id log
  = (Ok r, log') ->
  success r = false ->
  (∃ m, message r = Some m ∧ get_learning_summary r = m) ∧
  (∀ msgs, get_all_persona_messages db persona_name user_id = Ok msgs ->
           length msgs < 10 -> get_learning_summary r = too_few_message) ∧
  get_learning_summary {| success := false; message := None; analysis := None |}
  = "Analysis failed".
Proof.
  intros Hrun Hs.
  destruct (analyze_failure_message _ _ _ _ _ _ _ _ Hrun Hs) as [m ->].
  split; [by exists m|]. split; [|done].
  intros msgs Hdb Hlen.
  rewrite (analyze_too_few _ _ _ _ _ msgs) in Hrun by done.
  by injection Hrun as <- _.
Qed.

Lemma learning_summary_of_failure_witness :
  get_learning_summary (failure too_few_message) = too_few_message.
Proof.
  refine (proj1 (proj2 (learning_summary_of_failure Sample.no_json "p"
                          Sample.nine_db (Sample.answering Sample.fenced_answer)
                          None [] [] (failure too_few_message) _ _))
            (replicate 9 (Sample.user_says "hi")) _ _).
  - reflexivity.
  - reflexivity.
  - reflexivity.
  - simpl. lia.
Defined.

(** X9: the learning summary of every success record begins with the
    heading [## Learning Summary] and a blank line; for the raw-text
    fallback record it is that heading, a line feed and the raw text
    verbatim; for a success record without payload it is the heading
    alone. *)
Theorem learning_summary_of_success (la : learning_analysis) :
  success la = true ->
  (∃ rest, get_learning_summary la = summary_heading +:+ rest) ∧
  (∀ t, get_learning_summary (raw_fallback t) = summary_heading +:+ Py.nl +:+ t) ∧
  (analysis la = None -> get_learning_summary la = summary_heading).
Proof.
  intros Hs. split; [|split].
  - rewrite get_learning_summary_sections by done. by eexists.
  - done.
  - intros Ha. rewrite get_learning_summary_sections by done.
    rewrite Ha. simpl. by rewrite PyFacts.sapp_nil_r.
Qed.

Lemma learning_summary_of_success_witness :
  ∃ rest, get_learning_summary MoreSamples.behavior_learning
          = summary_heading +:+ rest.
Proof.
  refine (proj1 (learning_summary_of_success MoreSamples.behavior_learning _)).
  reflexivity.
Defined.

(** X10: in the summary of a parsed analysis every suggestion text that is
    present, the empty one included, is printed under its heading, and a
    non-empty list of topics or patterns is printed comma-separated under
    its heading; an empty list prints like a missing one. *)
Theorem learning_summary_sections (a : analysis_dict) :
  (∀ v, suggested_personality_additions a = Some v ->
        occurs ("**Personality Growth:** " +:+ v +:+ Py.nl +:+ Py.nl)
          (get_learning_summary (parsed a))) ∧
  (∀ v, suggested_behavior_additions a = Some v ->
        occurs ("**Behavior Evolution:** " +:+ v +:+ Py.nl +:+ Py.nl)
          (get_learning_summary (parsed a))) ∧
  (∀ v, speaking_style_refinements a = Some v ->
        occurs ("**Speaking Style Refinement:** " +:+ v +:+ Py.nl +:+ Py.nl)
          (get_learning_summary (parsed a))) ∧
  (∀ topics, common_topics a = Some topics -> topics ≠ [] ->
        occurs ("**Common Topics:** " +:+ Py.join ", " topics +:+ Py.nl +:+ Py.nl)
          (get_learning_summary (parsed a))) ∧
  (∀ items, successful_patterns a = Some items -> items ≠ [] ->
        occurs ("**Successful Patterns:** " +:+ Py.join ", " items +:+ Py.nl +:+ Py.nl)
          (get_learning_summary (parsed a))) ∧
  (common_topics a = Some [] ->
     get_learning_summary (parsed a)
     = get_learning_summary
         (parsed {| common_topics := None;
                    successful_patterns := successful_patterns a;
                    suggested_personality_additions := suggested_personality_additions a;
                    suggested_behavior_additions := suggested_behavior_additions a;
                    speaking_style_refinements := speaking_style_refinements a;
                    raw_response := raw_response a |})).
Proof.
  assert (∀ w, occurs w w) as Hrefl.
  { intros w. exists "", "". by rewrite PyFacts.sapp_nil_r. }
  rewrite (get_learning_summary_sections (parsed a)) by done. simpl default.
  repeat split.
  - intros v ->. do 3 apply occurs_app_r. apply occurs_app_l. apply Hrefl.
  - intros v ->. do 4 apply occurs_app_r. apply occurs_app_l. apply Hrefl.
  - intros v ->. do 5 apply occurs_app_r. apply occurs_app_l. apply Hrefl.
  - intros topics -> Hne. apply occurs_app_r, occurs_app_l.
    destruct topics; [done|]. apply Hrefl.
  - intros items -> Hne. do 2 apply occurs_app_r. apply occurs_app_l.
    destruct items; [done|]. apply Hrefl.
  - intros Ht. rewrite get_learning_summary_sections by done. simpl.
    by rewrite Ht.
Qed.

Lemma learning_summary_sections_witness :
  occurs ("**Common Topics:** " +:+ Py.join ", " ["travel"; "food"] +:+ Py.nl +:+ Py.nl)
    (get_learning_summary MoreSamples.behavior_learning) ∧
  occurs ("**Behavior Evolution:** " +:+ " asks questions" +:+ Py.nl +:+ Py.nl)
    (get_learning_summary MoreSamples.behavior_learning).
Proof.
  split.
  - refine (proj1 (proj2 (proj2 (proj2 (learning_summary_sections _))))
              ["travel"; "food"] _ _); [reflexivity|discriminate].
  - refine (proj1 (proj2 (learning_summary_sections _)) " asks questions" _).
    reflexivity.
Defined.

(** * Properties of the refinement suggestions *)

Section RefinementSuggestions.
Implicit Types (h : list Message) (P : gmap string string).

Lemma refinement_short h P c log :
  length h < 4 ->
  generate_persona_refinement_suggestions h P c log
  = (Ok refinement_too_short, log).
Proof.
  intros Hlen. unfold generate_persona_refinement_suggestions.
  rewrite (bool_decide_eq_true_2 _ Hlen). by rewrite orb_true_r.
Qed.

Lemma refinement_enough h P c log :
  4 <= length h ->
  generate_persona_refinement_suggestions h P c log
  = (Ok match generate_content c "gemini-2.0-flash-exp"
                (refinement_prompt P
                   (conversation_text_loop (Py.list_last 10 h) "")) with
        | Raise e => "Error analyzing conversation: " +:+ exn_str e
        | Ok response =>
            if text_truthy response then default "" (text response)
            else "Unable to generate suggestions at this time."
        end,
     log ++ [{| call_model := "gemini-2.0-flash-exp";
                call_contents :=
                  refinement_prompt P
                    (conversation_text_loop (Py.list_last 10 h) "") |}]).
Proof.
  intros Hlen. unfold generate_persona_refinement_suggestions.
  rewrite bool_decide_eq_false_2 by lia.
  destruct h as [|m h]; [simpl in Hlen; lia|]. simpl negb. simpl orb. cbv iota zeta.
  unfold try_except, mbind, M_bind, call_generate_content.
  by destruct (generate_content c _ _).
Qed.

Lemma list_last_app {A} (n : nat) (old recent : list A) :
  n <= length recent ->
  Py.list_last n (old ++ recent) = Py.list_last n recent.
Proof.
  intros Hn. unfold Py.list_last. rewrite length_app.
  rewrite drop_app_ge by lia. f_equal. lia.
Qed.

End RefinementSuggestions.

(** X11: with fewer than 4 messages of chat history (the empty history
    included) the refinement suggestions are the fixed text asking for more
    history, and no completion call is issued; with 4 or more, exactly one
    call is issued and a text is returned: the function never raises. *)
Theorem refinement_threshold (chat_history : list Message)
    (character_profile : gmap string string) (c : client) (log : list call) :
  (length chat_history < 4 ->
     generate_persona_refinement_suggestions chat_history character_profile c log
     = (Ok refinement_too_short, log)) ∧
  (4 <= length chat_history ->
     ∃ answer prompt,
       generate_persona_refinement_suggestions chat_history character_profile c log
       = (Ok answer, log ++ [{| call_model := "gemini-2.0-flash-exp";
                                call_contents := prompt |}])).
Proof.
  split; intros Hlen.
  - by apply refinement_short.
  - rewrite refinement_enough by done. by eexists _, _.
Qed.

Lemma refinement_threshold_witness :
  generate_persona_refinement_suggestions
    (take 3 MoreSamples.four_messages) Sample.kind_profile
    (Sample.answering "1. Be bolder") []
  = (Ok refinement_too_short, []) ∧
  ∃ answer prompt,
    generate_persona_refinement_suggestions MoreSamples.four_messages
      Sample.kind_profile (Sample.answering "1. Be bolder") []
    = (Ok answer, [] ++ [{| call_model := "gemini-2.0-flash-exp";
                            call_contents := prompt |}]).
Proof.
  split.
  - apply (proj1 (refinement_threshold (take 3 MoreSamples.four_messages)
                    Sample.kind_profile (Sample.answering "1. Be bolder") [])).
    simpl. lia.
  - apply (proj2 (refinement_threshold MoreSamples.four_messages
                    Sample.kind_profile (Sample.answering "1. Be bolder") [])).
    simpl. lia.
Defined.

(** X12: with at least 4 messages, the refinement suggestions are the text
    of the completion response when it is non-empty, the fixed text
    [Unable to generate suggestions at this time.] when the response has no
    text or an empty one, and [Error analyzing conversation: ] followed by
    the error text when the completion call fails. *)
Theorem refinement_outcome (chat_history : list Message)
    (character_profile : gmap string string) (c : client) (log : list call) :
  4 <= length chat_history ->
  let prompt :=
    refinement_prompt character_profile
      (conversation_text_loop (Py.list_last 10 chat_history) "") in
  let answer :=
    (generate_persona_refinement_suggestions chat_history character_profile c
       log).1 in
  (∀ t, generate_content c "gemini-2.0-flash-exp" prompt = Ok {| text := Some t |} ->
        t ≠ "" -> answer = Ok t) ∧
  (∀ response, generate_content c "gemini-2.0-flash-exp" prompt = Ok response ->
        text response = None ∨ text response = Some "" ->
        answer = Ok "Unable to generate suggestions at this time.") ∧
  (∀ e, generate_content c "gemini-2.0-flash-exp" prompt = Raise e ->
        answer = Ok ("Error analyzing conversation: " +:+ exn_str e)).
Proof.
  intros Hlen. cbv zeta. rewrite refinement_enough by done. simpl.
  split; [|split].
  - intros t -> Ht. unfold text_truthy. simpl. by destruct t.
  - intros response -> Ht. unfold text_truthy. by destruct Ht as [-> | ->].
  - by intros e ->.
Qed.

Lemma refinement_outcome_witness :
  (generate_persona_refinement_suggestions MoreSamples.four_messages
     Sample.kind_profile (Sample.answering "1. Be bolder") []).1
  = Ok "1. Be bolder" ∧
  (generate_persona_refinement_suggestions MoreSamples.four_messages
     Sample.kind_profile MoreSamples.silent_client []).1
  = Ok "Unable to generate suggestions at this time." ∧
  (generate_persona_refinement_suggestions MoreSamples.four_messages
     Sample.kind_profile MoreSamples.raising_client []).1
  = Ok ("Error analyzing conversation: " +:+ "quota exceeded").
Proof.
  split; [|split].
  - refine (proj1 (refinement_outcome MoreSamples.four_messages Sample.kind_profile
                     (Sample.answering "1. Be bolder") [] _) "1. Be bolder" _ _).
    + simpl. lia.
    + reflexivity.
    + discriminate.
  - refine (proj1 (proj2 (refinement_outcome MoreSamples.four_messages
                            Sample.kind_profile MoreSamples.silent_client [] _))
              {| text := None |} _ _).
    + simpl. lia.
    + reflexivity.
    + by left.
  - refine (proj2 (proj2 (refinement_outcome MoreSamples.four_messages
                            Sample.kind_profile MoreSamples.raising_client [] _))
              (OtherError "quota exceeded") _).
    + simpl. lia.
    + reflexivity.
Defined.

(** X13: the refinement suggestions depend on the chat history only through
    its last 10 messages: putting any older messages in front of a history
    of at least 10 messages changes neither the prompt sent nor the
    result. *)
Theorem refinement_uses_last_ten (older recent : list Message)
    (character_profile : gmap string string) (c : client) (log : list call) :
  10 <= length recent ->
  generate_persona_refinement_suggestions (older ++ recent) character_profile c log
  = generate_persona_refinement_suggestions recent character_profile c log.
Proof.
  intros Hlen.
  rewrite !refinement_enough by (rewrite ?length_app; lia).
  by rewrite list_last_app by lia.
Qed.

Lemma refinement_uses_last_ten_witness :
  generate_persona_refinement_suggestions
    (MoreSamples.four_messages ++ replicate 10 (Sample.user_says "hi"))
    Sample.kind_profile (Sample.answering "1. Be bolder") []
  = generate_persona_refinement_suggestions
      (replicate 10 (Sample.user_says "hi"))
      Sample.kind_profile (Sample.answering "1. Be bolder") [].
Proof.
  apply (refinement_uses_last_ten MoreSamples.four_messages
           (replicate 10 (Sample.user_says "hi"))).
  simpl. lia.
Defined.

(** * Properties of the chat turn *)

Section ChatWithPersona.
Import PyFacts.
Implicit Types (h : list Message) (P : gmap string string).

(** A history message as one line of the conversation. *)
Lemma conversation_parts_loop_app h (parts : list string) :
  conversation_parts_loop h parts
  = parts ++ conversation_parts_loop h [].
Proof.
  revert parts. induction h as [|m h IH]; intros parts; simpl.
  - by rewrite app_nil_r.
  - rewrite IH. rewrite (IH (if decide _ then _ else _)).
    destruct (decide (role m = "user")); by rewrite <- app_assoc.
Qed.

Lemma conversation_parts_loop_length h :
  length (conversation_parts_loop h []) = length h.
Proof.
  induction h as [|m h IH]; [done|]. simpl.
  rewrite conversation_parts_loop_app, length_app, IH.
  by destruct (decide (role m = "user")).
Qed.

(** The last element of a joined list closes the text. *)
Lemma join_snoc (sep : string) (xs : list string) (x : string) :
  ∃ before, Py.join sep (xs ++ [x]) = before +:+ x
            ∧ (xs = [] -> before = "").
Proof.
  induction xs as [|y xs IH].
  - by exists "".
  - destruct IH as (before & E & _). simpl.
    destruct (xs ++ [x]) as [|z zs] eqn:Ez; [by destruct xs|].
    rewrite E. exists (y +:+ sep +:+ before).
    split; [by rewrite !sapp_assoc|done].
Qed.

(** The loop renders the history message by message. *)
Lemma conversation_parts_loop_lines h :
  conversation_parts_loop h [] = map chat_line h.
Proof.
  induction h as [|m h IH]; [done|]. simpl.
  rewrite conversation_parts_loop_app, IH. unfold chat_line.
  by destruct (decide (role m = "user")).
Qed.

Lemma full_prompt_blank P k (u : string) h :
  full_prompt (<[k := ""]> P) u h = full_prompt (delete k P) u h.
Proof.
  unfold full_prompt. by rewrite generate_system_prompt_blank, analyze_blank.
Qed.

End ChatWithPersona.

(** X14: a chat turn never raises.  It returns the text of the completion
    response when that text is non-empty, the fixed text
    [I'm having trouble responding right now.] when the response has no
    text or an empty one, and [Error generating response: ] followed by the
    error text when the completion call fails. *)
Theorem chat_outcome (c : chat_client) (character_profile : gmap string string)
    (user_message : string) (chat_history : list Message) :
  let call :=
    generate_content_config c "gemini-2.0-flash-exp"
      (full_prompt character_profile user_message chat_history)
      {| temperature := 0.8; max_output_tokens := 1000 |} in
  let answer := chat_with_persona c character_profile user_message chat_history in
  (∀ t, call = Ok {| text := Some t |} -> t ≠ "" -> answer = t) ∧
  (∀ response, call = Ok response ->
        text response = None ∨ text response = Some "" ->
        answer = "I'm having trouble responding right now.") ∧
  (∀ e, call = Raise e -> answer = "Error generating response: " +:+ exn_str e).
Proof.
  cbv zeta. unfold chat_with_persona, chat_with_persona_body.
  cbv zeta. unfold mbind, result_bind, rbind.
  split; [|split].
  - intros t -> Ht. unfold text_truthy. simpl. by destruct t.
  - intros response -> Ht. unfold text_truthy. by destruct Ht as [-> | ->].
  - by intros e ->.
Qed.

Lemma chat_outcome_witness :
  chat_with_persona (MoreSamples.chat_answering "Hello!") Sample.cheerful_profile
    "hi" MoreSamples.four_messages = "Hello!" ∧
  chat_with_persona MoreSamples.chat_silent Sample.cheerful_profile
    "hi" MoreSamples.four_messages = "I'm having trouble responding right now." ∧
  chat_with_persona MoreSamples.chat_raising Sample.cheerful_profile
    "hi" MoreSamples.four_messages
  = "Error generating response: " +:+ "quota exceeded".
Proof.
  split; [|split].
  - refine (proj1 (chat_outcome (MoreSamples.chat_answering "Hello!")
                     Sample.cheerful_profile "hi" MoreSamples.four_messages)
              "Hello!" _ _); [reflexivity|discriminate].
  - refine (proj1 (proj2 (chat_outcome MoreSamples.chat_silent
                            Sample.cheerful_profile "hi" MoreSamples.four_messages))
              {| text := None |} _ _); [reflexivity|by left].
  - refine (proj2 (proj2 (chat_outcome MoreSamples.chat_raising
                            Sample.cheerful_profile "hi" MoreSamples.four_messages))
              (OtherError "quota exceeded") _). reflexivity.
Defined.

(** X15: the prompt of a chat turn is the composed system prompt of the
    profile, a blank line, the heading [Conversation:], then one line per
    history message in order ([User: ] or [Character: ] and the content),
    then the current user message as the last line [User: ...], a blank
    line and the cue [Character:].  A profile key bound to the empty text
    gives the same prompt and the same answer as a profile without that
    key. *)
Theorem chat_prompt_shape (c : chat_client) (character_profile : gmap string string)
    (user_message : string) (chat_history : list Message) :
  full_prompt character_profile user_message chat_history
  = compose_system_prompt character_profile
    +:+ Py.nl +:+ Py.nl +:+ "Conversation:" +:+ Py.nl
    +:+ Py.join Py.nl (map chat_line chat_history ++ ["User: " +:+ user_message])
    +:+ Py.nl +:+ Py.nl +:+ "Character:" ∧
  (∃ before,
     Py.join Py.nl (map chat_line chat_history ++ ["User: " +:+ user_message])
     = before +:+ "User: " +:+ user_message
     ∧ (chat_history = [] -> before = "")) ∧
  (∀ k, full_prompt (<[k := ""]> character_profile) user_message chat_history
        = full_prompt (delete k character_profile) user_message chat_history) ∧
  (∀ k, chat_with_persona c (<[k := ""]> character_profile) user_message chat_history
        = chat_with_persona c (delete k character_profile) user_message
            chat_history).
Proof.
  split; [|split; [|split]].
  - unfold full_prompt, compose_system_prompt. cbv zeta.
    by rewrite conversation_parts_loop_lines.
  - destruct (join_snoc Py.nl (map chat_line chat_history)
                ("User: " +:+ user_message)) as (before & E & Hb).
    exists before. split; [done|]. intros ->. by apply Hb.
  - intros k. apply full_prompt_blank.
  - intros k. unfold chat_with_persona, chat_with_persona_body. cbv zeta.
    by rewrite full_prompt_blank.
Qed.

Lemma chat_prompt_shape_witness :
  full_prompt Sample.cheerful_profile "and then?" MoreSamples.four_messages
  = compose_system_prompt Sample.cheerful_profile
    +:+ Py.nl +:+ Py.nl +:+ "Conversation:" +:+ Py.nl
    +:+ Py.join Py.nl ["User: hello"; "Character: hi there"; "User: tell me more";
                       "Character: gladly"; "User: and then?"]
    +:+ Py.nl +:+ Py.nl +:+ "Character:".
Proof.
  exact (proj1 (chat_prompt_shape (MoreSamples.chat_answering "Hello!")
                  Sample.cheerful_profile "and then?" MoreSamples.four_messages)).
Defined.

(** * Further properties of the trait classification *)

Section TraitClassifierMore.
Import Py PyFacts.
Implicit Types (P : gmap string string).

Lemma occurs_contains (k t : string) : occurs k t <-> contains k t = true.
Proof. unfold occurs. by rewrite contains_spec. Qed.

Lemma occurs_or (k1 k2 t1 t2 : string) :
  occurs k1 t1 ∨ occurs k2 t2 <-> contains k1 t1 || contains k2 t2 = true.
Proof. by rewrite orb_true_iff, !occurs_contains. Qed.

Lemma occurs_or3 (k1 k2 k3 t1 t2 t3 : string) :
  occurs k1 t1 ∨ occurs k2 t2 ∨ occurs k3 t3
  <-> contains k1 t1 || contains k2 t2 || contains k3 t3 = true.
Proof. rewrite !orb_true_iff, !occurs_contains. tauto. Qed.

Lemma tone_patterns_chain P :
  let p := lower (dict_get P "personality" "") in
  let s := lower (dict_get P "speaking_style" "") in
  tone_patterns (analyze_tone_and_emoji_patterns P)
  = append_if (contains "humorous" p || contains "witty" p || contains "funny" p)
      "Include appropriate humor and wit"
      (append_if (contains "thoughtful" p || contains "contemplative" p)
         "Take time to reflect before responding"
         (append_if (contains "enthusiastic" p || contains "excited" p)
            "Show excitement with exclamation marks"
            (append_if (contains "casual" s || contains "relaxed" p)
               "Keep responses conversational and relaxed"
               (append_if (contains "professional" p || contains "formal" s)
                  "Maintain professional demeanor"
                  (append_if (contains "friendly" p || contains "warm" p)
                     "Use warm, welcoming language" []))))).
Proof.
  unfold analyze_tone_and_emoji_patterns. cbv zeta.
  destruct (any_keyword high_emoji_keywords _ _); [reflexivity|].
  destruct (any_keyword low_emoji_keywords _ _); reflexivity.
Qed.

Lemma speaking_patterns_chain P :
  let p := lower (dict_get P "personality" "") in
  let s := lower (dict_get P "speaking_style" "") in
  speaking_patterns (analyze_tone_and_emoji_patterns P)
  = append_if (contains "stories" p || contains "narrative" s)
      "Share relevant anecdotes and stories"
      (append_if (contains "questions" p || contains "curious" p)
         "Ask follow-up questions naturally"
         (if contains "short" s || contains "concise" s
          then [] ++ ["Keep responses brief and to the point"]
          else if contains "detailed" s || contains "elaborate" s
          then [] ++ ["Provide detailed, comprehensive responses"]
          else [])).
Proof.
  unfold analyze_tone_and_emoji_patterns. cbv zeta.
  destruct (any_keyword high_emoji_keywords _ _); [reflexivity|].
  destruct (any_keyword low_emoji_keywords _ _); reflexivity.
Qed.

Lemma lower_char_idem (c : ascii) : lower_char (lower_char c) = lower_char c.
Proof. destruct c as [[] [] [] [] [] [] [] []]; reflexivity. Qed.

Lemma lower_idem (s : string) : lower (lower s) = lower s.
Proof.
  induction s as [|c s IH]; [done|]. simpl. by rewrite lower_char_idem, IH.
Qed.

(** The classification reads the profile through the two lower-cased texts
    only. *)
Lemma analyze_congruence P Q :
  lower (dict_get P "personality" "") = lower (dict_get Q "personality" "") ->
  lower (dict_get P "speaking_style" "") = lower (dict_get Q "speaking_style" "") ->
  analyze_tone_and_emoji_patterns P = analyze_tone_and_emoji_patterns Q.
Proof.
  intros Hp Hs. unfold analyze_tone_and_emoji_patterns. by rewrite Hp, Hs.
Qed.

End TraitClassifierMore.

(** X16: the tone patterns are taken from the six fixed instructions, in
    their fixed order and without repetition, and each instruction is
    present exactly when one of its keywords occurs in the lower-cased text
    it is tested on: friendly/warm, enthusiastic/excited,
    thoughtful/contemplative and humorous/witty/funny in the personality;
    professional in the personality or formal in the speaking style; casual
    in the speaking style or relaxed in the personality. *)
Theorem tone_patterns_rules (P : gmap string string) :
  let p := Py.lower (dict_get P "personality" "") in
  let s := Py.lower (dict_get P "speaking_style" "") in
  let tp := tone_patterns (analyze_tone_and_emoji_patterns P) in
  tp `sublist_of` tone_instructions ∧
  ("Use warm, welcoming language" ∈ tp
   <-> occurs "friendly" p ∨ occurs "warm" p) ∧
  ("Maintain professional demeanor" ∈ tp
   <-> occurs "professional" p ∨ occurs "formal" s) ∧
  ("Keep responses conversational and relaxed" ∈ tp
   <-> occurs "casual" s ∨ occurs "relaxed" p) ∧
  ("Show excitement with exclamation marks" ∈ tp
   <-> occurs "enthusiastic" p ∨ occurs "excited" p) ∧
  ("Take time to reflect before responding" ∈ tp
   <-> occurs "thoughtful" p ∨ occurs "contemplative" p) ∧
  ("Include appropriate humor and wit" ∈ tp
   <-> occurs "humorous" p ∨ occurs "witty" p ∨ occurs "funny" p).
Proof.
  cbv zeta. rewrite tone_patterns_chain. cbv zeta.
  rewrite occurs_or3, !occurs_or.
  destruct (Py.contains "friendly" _ || Py.contains "warm" _);
    destruct (Py.contains "professional" _ || Py.contains "formal" _);
    destruct (Py.contains "casual" _ || Py.contains "relaxed" _);
    destruct (Py.contains "enthusiastic" _ || Py.contains "excited" _);
    destruct (Py.contains "thoughtful" _ || Py.contains "contemplative" _);
    destruct (Py.contains "humorous" _ || Py.contains "witty" _
              || Py.contains "funny" _);
    unfold append_if, tone_instructions; simpl app;
    (split; [decide_list|]);
    do 5 (split; [member_iff|]); member_iff.
Qed.

(** X17: the speaking patterns are taken from the four fixed instructions in
    their fixed order.  The instruction to be brief is present exactly when
    [short] or [concise] occurs in the lower-cased speaking style; the
    instruction to be detailed exactly when neither occurs and [detailed] or
    [elaborate] does, so the two are never both present; the instruction to
    ask questions exactly when [questions] or [curious] occurs in the
    personality; the one to tell stories exactly when [stories] occurs in
    the personality or [narrative] in the speaking style. *)
Theorem speaking_patterns_rules (P : gmap string string) :
  let p := Py.lower (dict_get P "personality" "") in
  let s := Py.lower (dict_get P "speaking_style" "") in
  let sp := speaking_patterns (analyze_tone_and_emoji_patterns P) in
  sp `sublist_of` speaking_instructions ∧
  ("Keep responses brief and to the point" ∈ sp
   <-> occurs "short" s ∨ occurs "concise" s) ∧
  ("Provide detailed, comprehensive responses" ∈ sp
   <-> ¬ (occurs "short" s ∨ occurs "concise" s)
       ∧ (occurs "detailed" s ∨ occurs "elaborate" s)) ∧
  ("Ask follow-up questions naturally" ∈ sp
   <-> occurs "questions" p ∨ occurs "curious" p) ∧
  ("Share relevant anecdotes and stories" ∈ sp
   <-> occurs "stories" p ∨ occurs "narrative" s) ∧
  ¬ ("Keep responses brief and to the point" ∈ sp
     ∧ "Provide detailed, comprehensive responses" ∈ sp).
Proof.
  cbv zeta. rewrite speaking_patterns_chain. cbv zeta.
  rewrite !occurs_or.
  destruct (Py.contains "short" _ || Py.contains "concise" _);
    destruct (Py.contains "detailed" _ || Py.contains "elaborate" _);
    destruct (Py.contains "questions" _ || Py.contains "curious" _);
    destruct (Py.contains "stories" _ || Py.contains "narrative" _);
    unfold append_if, speaking_instructions; simpl app;
    (split; [decide_list|]);
    (split; [member_iff|]);
    (split;
     [split;
      [intros H;
       first [ (split; [intros Hc; discriminate Hc | reflexivity]) | decide_list ]
      |intros [H1 H2];
       first [ discriminate H2 | (exfalso; apply H1; reflexivity) | decide_list ]]
     |]);
    do 2 (split; [member_iff|]);
    intros [H1 H2]; decide_list.
Qed.

Lemma tone_patterns_rules_witness :
  "Use warm, welcoming language"
  ∈ tone_patterns (analyze_tone_and_emoji_patterns MoreSamples.warm_profile).
Proof.
  apply (proj1 (proj2 (tone_patterns_rules MoreSamples.warm_profile))).
  right. by exists "", " and curious".
Defined.

Lemma speaking_patterns_rules_witness :
  "Keep responses brief and to the point"
  ∈ speaking_patterns (analyze_tone_and_emoji_patterns MoreSamples.warm_profile).
Proof.
  apply (proj1 (proj2 (speaking_patterns_rules MoreSamples.warm_profile))).
  left. by exists "", ", detailed".
Defined.

(** X18: the classification depends on the profile only through the
    lower-cased [personality] and [speaking_style]: binding any other key
    changes nothing, and two profiles whose two texts agree up to letter
    case get the same tone configuration; in particular lower-casing either
    text changes nothing. *)
Theorem classification_inputs (P : gmap string string) :
  (∀ k v, k ∉ ["personality"; "speaking_style"] ->
          analyze_tone_and_emoji_patterns (<[k := v]> P)
          = analyze_tone_and_emoji_patterns P) ∧
  (∀ Q : gmap string string,
     Py.lower (dict_get P "personality" "") = Py.lower (dict_get Q "personality" "") ->
     Py.lower (dict_get P "speaking_style" "")
     = Py.lower (dict_get Q "speaking_style" "") ->
     analyze_tone_and_emoji_patterns P = analyze_tone_and_emoji_patterns Q) ∧
  (∀ v, analyze_tone_and_emoji_patterns (<["personality" := Py.lower v]> P)
        = analyze_tone_and_emoji_patterns (<["personality" := v]> P)) ∧
  (∀ v, analyze_tone_and_emoji_patterns (<["speaking_style" := Py.lower v]> P)
        = analyze_tone_and_emoji_patterns (<["speaking_style" := v]> P)).
Proof.
  split; [|split; [|split]].
  - intros k v Hk. apply analyze_congruence; unfold dict_get;
      rewrite lookup_insert_ne; first [done | intros ->; apply Hk; key_in].
  - intros Q. apply analyze_congruence.
  - intros v. apply analyze_congruence; unfold dict_get.
    + by rewrite !lookup_insert_eq; simpl; rewrite lower_idem.
    + by rewrite !lookup_insert_ne.
  - intros v. apply analyze_congruence; unfold dict_get.
    + by rewrite !lookup_insert_ne.
    + by rewrite !lookup_insert_eq; simpl; rewrite lower_idem.
Qed.

Lemma classification_inputs_witness :
  analyze_tone_and_emoji_patterns (<["name" := "Alex"]> MoreSamples.warm_profile)
  = analyze_tone_and_emoji_patterns MoreSamples.warm_profile.
Proof.
  apply (proj1 (classification_inputs MoreSamples.warm_profile) "name" "Alex").
  other_key.
Defined.

(** X19: enhancing never alters the base prompt, it only appends to it; and
    for the patterns the classification computes, the emoji usage is one of
    [high], [moderate] and [minimal], the example set is empty exactly for
    [minimal], and the composed prompt is the base prompt followed, after a
    blank line, by an [Emoji Usage:] paragraph. *)
Theorem composed_prompt_emoji_paragraph (P : gmap string string) :
  (∀ base p, ∃ added, enhance_system_prompt_with_patterns base p = base +:+ added) ∧
  emoji_usage (analyze_tone_and_emoji_patterns P) ∈ ["high"; "moderate"; "minimal"] ∧
  (emoji_examples (analyze_tone_and_emoji_patterns P) = []
   <-> emoji_usage (analyze_tone_and_emoji_patterns P) = "minimal") ∧
  (∃ rest,
     compose_system_prompt P
     = generate_system_prompt P +:+ Py.nl +:+ Py.nl
       +:+ "Emoji Usage: Use emojis " +:+ rest).
Proof.
  assert (∀ base p, ∃ added,
            enhance_system_prompt_with_patterns base p = base +:+ added
            ∧ (emoji_usage p ∈ ["high"; "moderate"; "minimal"] ->
               ∃ rest, added = Py.nl +:+ Py.nl +:+ "Emoji Usage: Use emojis " +:+ rest))
    as Henh.
  { intros base p. unfold enhance_system_prompt_with_patterns. cbv zeta.
    set (e := if decide (emoji_usage p = "high") then _ else _).
    assert (∃ added1, e = base +:+ added1
              ∧ (emoji_usage p ∈ ["high"; "moderate"; "minimal"] ->
                 ∃ rest, added1 = Py.nl +:+ Py.nl +:+ "Emoji Usage: Use emojis " +:+ rest))
      as (added1 & -> & H1).
    { subst e. repeat case_decide.
      - eexists. split; [reflexivity|]. intros _. by eexists.
      - eexists. split; [reflexivity|]. intros _. by eexists.
      - eexists. split; [reflexivity|]. intros _. by eexists.
      - exists "". split; [by rewrite PyFacts.sapp_nil_r|].
        intros Hin. exfalso.
        repeat (apply elem_of_cons in Hin as [Hin|Hin]; [done|]).
        by apply elem_of_nil in Hin. }
    destruct (list_truthy (tone_patterns p)), (list_truthy (speaking_patterns p));
      eexists; (split; [rewrite ?PyFacts.sapp_assoc; reflexivity|]);
      intros Hin; destruct (H1 Hin) as [rest ->]; eexists;
      rewrite ?PyFacts.sapp_assoc; reflexivity. }
  pose proof (emoji_usage_cases P) as E. cbv zeta in E.
  assert (emoji_usage (analyze_tone_and_emoji_patterns P)
          ∈ ["high"; "moderate"; "minimal"]
          ∧ (emoji_examples (analyze_tone_and_emoji_patterns P) = []
             <-> emoji_usage (analyze_tone_and_emoji_patterns P) = "minimal"))
    as [Hin Hiff].
  { destruct (any_keyword high_emoji_keywords _ _);
      [|destruct (any_keyword low_emoji_keywords _ _)];
      injection E as -> ->; (split; [key_in|]); split; intros H; done. }
  split; [|split; [done|split; [done|]]].
  - intros base p. destruct (Henh base p) as (added & ? & _). by exists added.
  - unfold compose_system_prompt. cbv zeta.
    destruct (Henh (generate_system_prompt P) (analyze_tone_and_emoji_patterns P))
      as (added & -> & Hrest).
    destruct (Hrest Hin) as [rest ->]. by exists rest.
Qed.

Section PromptFields.
Import PyFacts.
Implicit Types (P : gmap string string).

Lemma generate_system_prompt_paragraphs P :
  generate_system_prompt P
  = prompt_header +:+ labeled_paragraphs P +:+ prompt_instructions.
Proof.
  unfold generate_system_prompt, labeled_paragraphs.
  pose proof (emit_fields_paragraphs P profile_fields prompt_header) as E.
  simpl in E. rewrite E. by rewrite sapp_assoc.
Qed.

Lemma emit_field_other label key P k (v prompt : string) :
  k ≠ key -> emit_field label key (<[k := v]> P) prompt = emit_field label key P prompt.
Proof. intros Hk. unfold emit_field. by rewrite lookup_insert_ne. Qed.

End PromptFields.

(** X20: every profile field of the prompt that is bound to a non-empty
    text appears in the base prompt as a paragraph, its heading followed by
    the text verbatim (a text of spaces only included); keys other than the
    six prompt fields are ignored. *)
Theorem prompt_includes_fields (P : gmap string string) :
  (∀ key label v,
     (key, label) ∈ profile_fields -> P !! key = Some v -> v ≠ "" ->
     occurs (label +:+ ": " +:+ v +:+ Py.nl +:+ Py.nl) (generate_system_prompt P)) ∧
  (∀ k v, k ∉ map fst profile_fields ->
          generate_system_prompt (<[k := v]> P) = generate_system_prompt P).
Proof.
  split.
  - intros key label v Hin HP Hv.
    rewrite generate_system_prompt_paragraphs.
    apply occurs_app_r, occurs_app_l. unfold labeled_paragraphs.
    apply (occurs_concat _ (paragraph P (key, label))).
    + apply list_elem_of_In, in_map, filter_In. split; [by apply list_elem_of_In|].
      unfold field_present. simpl. rewrite HP. by apply PyFacts.truthy_true.
    + unfold paragraph, dict_get. simpl. rewrite HP. simpl.
      exists "", "". by rewrite PyFacts.sapp_nil_r.
  - intros k v Hk. unfold generate_system_prompt.
    rewrite !emit_field_other; [done|..]; intros ->; apply Hk; simpl; key_in.
Qed.

Lemma prompt_includes_fields_witness :
  occurs ("Personality Traits" +:+ ": " +:+ "Cheerful, optimistic" +:+ Py.nl +:+ Py.nl)
    (generate_system_prompt Sample.cheerful_profile).
Proof.
  refine (proj1 (prompt_includes_fields Sample.cheerful_profile)
            "personality" "Personality Traits" "Cheerful, optimistic" _ _ _).
  - right. by left.
  - reflexivity.
  - discriminate.
Defined.

(** * Further properties of the memory context *)

Section MemorySummarizerMore.
Import PyFacts.
Variable json_loads_messages : string -> result (list Message).
Implicit Types (msgs : list Message) (convs : list conversation).

Lemma chars_app (s t : string) : Py.chars (s +:+ t) = Py.chars s + Py.chars t.
Proof.
  induction s as [|c s IH]; [done|]. rewrite sapp_cons. simpl.
  destruct (Py.is_continuation c); lia.
Qed.

(** A slice holds at most as many characters as asked for. *)
Lemma take_chars (n : nat) (s : string) : Py.chars (Py.take n s) <= n.
Proof.
  revert n. induction s as [|c s IH]; intros n; simpl; [lia|].
  destruct (Py.is_continuation c) eqn:Hc; simpl.
  - rewrite Hc. apply IH.
  - destruct n as [|n]; simpl; [lia|]. rewrite Hc. specialize (IH n). lia.
Qed.

Lemma summary_point_chars (msg : Message) : Py.chars (summary_point msg) <= 101.
Proof.
  unfold summary_point. rewrite !chars_app.
  pose proof (take_chars 80 (content msg)).
  change (Py.chars "- User mentioned: ") with 18. change (Py.chars "...") with 3. lia.
Qed.

Lemma session_bullets_bounded msgs (b : string) :
  b ∈ session_bullets msgs -> Py.chars b <= 101.
Proof.
  unfold session_bullets. intros H%subseteq_take.
  apply list_elem_of_In, in_map_iff in H as (msg & <- & _).
  apply summary_point_chars.
Qed.

Lemma session_block_chars msgs : Py.chars (session_block msgs) <= 222.
Proof.
  unfold session_block.
  pose proof (session_bullets_length msgs) as Hl.
  pose proof (session_bullets_bounded msgs) as Hb.
  destruct (session_bullets msgs) as [|b1 [|b2 [|b3 bs]]].
  - simpl. lia.
  - rewrite !chars_app. simpl Py.join.
    pose proof (Hb b1 ltac:(by left)).
    change (Py.chars Py.nl) with 1. change (Py.chars "Previous session:") with 17. lia.
  - rewrite !chars_app. simpl Py.join. rewrite !chars_app.
    pose proof (Hb b1 ltac:(by left)). pose proof (Hb b2 ltac:(right; by left)).
    change (Py.chars Py.nl) with 1. change (Py.chars "Previous session:") with 17. lia.
  - simpl in Hl. lia.
Qed.

Lemma session_blocks_chars (msgss : list (list Message)) :
  Py.chars (concat_strings (map session_block msgss)) <= 222 * length msgss.
Proof.
  induction msgss as [|msgs msgss IH]; simpl.
  - lia.
  - rewrite chars_app. pose proof (session_block_chars msgs). lia.
Qed.

(** Either every conversation decodes, or one of them raises. *)
Lemma conv_messages_all_or_raise convs :
  (∃ msgss,
     Forall2 (fun conv msgs => conv_messages json_loads_messages conv = Ok msgs)
             convs msgss)
  ∨ (∃ conv e, conv ∈ convs ∧ conv_messages json_loads_messages conv = Raise e).
Proof.
  induction convs as [|conv convs IH].
  - left. exists []. constructor.
  - destruct (conv_messages json_loads_messages conv) as [msgs|e] eqn:E.
    + destruct IH as [[msgss H]|(c & e & Hin & Hc)].
      * left. exists (msgs :: msgss). by constructor.
      * right. exists c, e. split; [by right|done].
    + right. exists conv, e. split; [by left|done].
Qed.

(** The recall string in terms of the session blocks. *)
Lemma build_memory_context_blocks persona_name db user_id convs
    (msgss : list (list Message)) :
  get_persona_conversations db persona_name user_id 3 = Ok convs ->
  Forall2 (fun conv msgs => conv_messages json_loads_messages conv = Ok msgs)
          convs msgss ->
  build_memory_context json_loads_messages persona_name db user_id
  = match convs with
    | [] => ""
    | _ :: _ =>
        memory_header +:+ concat_strings (map session_block msgss) +:+ memory_footer
    end.
Proof.
  intros Hdb Hdec. unfold build_memory_context, build_memory_context_body.
  rewrite Hdb. unfold mbind, result_bind, rbind.
  destruct convs as [|conv convs]; [done|]. simpl negb. cbv iota.
  rewrite (conversations_loop_blocks _ _ _ _ Hdec). by rewrite sapp_assoc.
Qed.

Lemma build_memory_context_raise persona_name db user_id convs :
  get_persona_conversations db persona_name user_id 3 = Ok convs ->
  (∃ conv e, conv ∈ convs ∧ conv_messages json_loads_messages conv = Raise e) ->
  build_memory_context json_loads_messages persona_name db user_id = "".
Proof.
  intros Hdb Hbad. unfold build_memory_context, build_memory_context_body.
  rewrite Hdb. unfold mbind, result_bind, rbind.
  destruct convs as [|conv convs].
  - destruct Hbad as (c & _ & Hin & _). by apply elem_of_nil in Hin.
  - simpl negb. cbv iota.
    by destruct (conversations_loop_raises json_loads_messages _ memory_header Hbad)
      as [e ->].
Qed.

(** Only the last four messages of a conversation reach its block. *)
Lemma session_block_recent (older recent : list Message) :
  4 <= length recent ->
  session_block (older ++ recent) = session_block recent.
Proof.
  intros Hlen. unfold session_block, session_bullets.
  rewrite reverse_app, take_app_le by (rewrite length_reverse; lia). done.
Qed.

End MemorySummarizerMore.

(** X21: the recall string is bounded.  When storage returns at most the 3
    conversations asked for, the memory context has at most 765 characters
    (as [len] counts them), whatever the number and the size of the stored
    messages and whether or not they decode. *)
Theorem memory_context_bounded
    (json_loads_messages : string -> result (list Message))
    (persona_name : string) (db : db_module) (user_id : option nat) :
  (∀ convs, get_persona_conversations db persona_name user_id 3 = Ok convs ->
            length convs <= 3) ->
  Py.chars (build_memory_context json_loads_messages persona_name db user_id) <= 765.
Proof.
  intros Hlimit.
  destruct (get_persona_conversations db persona_name user_id 3)
    as [convs|e] eqn:Hdb.
  - specialize (Hlimit convs eq_refl).
    destruct (conv_messages_all_or_raise json_loads_messages convs)
      as [[msgss Hdec]|Hbad].
    + rewrite (build_memory_context_blocks _ _ _ _ _ _ Hdb Hdec).
      destruct convs as [|conv convs]; [simpl; lia|].
      rewrite !chars_app.
      pose proof (session_blocks_chars msgss) as Hb.
      apply Forall2_length in Hdec.
      change (Py.chars memory_header) with 38.
      change (Py.chars memory_footer) with 61.
      lia.
    + rewrite (build_memory_context_raise _ _ _ _ _ Hdb Hbad). simpl. lia.
  - unfold build_memory_context, build_memory_context_body. rewrite Hdb.
    simpl. lia.
Qed.

Lemma memory_context_bounded_witness :
  Py.chars (build_memory_context Sample.no_json "p" MoreSamples.accented_db None)
  <= 765 ∧
  Py.chars (build_memory_context Sample.no_json "p" MoreSamples.accented_db None)
  = 765 ∧
  Py.len (build_memory_context Sample.no_json "p" MoreSamples.accented_db None)
  = 1245.
Proof.
  split; [|split; vm_compute; reflexivity].
  apply (memory_context_bounded Sample.no_json "p" MoreSamples.accented_db None).
  intros convs [= <-]. simpl. lia.
Defined.

(** X22: the recall string depends on a conversation only through its last
    4 messages.  If two stores return conversations that pairwise share
    their most recent messages, at least 4 of them, and differ only in the
    older ones, the two memory contexts are equal. *)
Theorem memory_context_uses_recent
    (json_loads_messages : string -> result (list Message))
    (persona_name : string) (db1 db2 : db_module) (user_id : option nat)
    (convs1 convs2 : list conversation) :
  get_persona_conversations db1 persona_name user_id 3 = Ok convs1 ->
  get_persona_conversations db2 persona_name user_id 3 = Ok convs2 ->
  Forall2 (fun c1 c2 =>
             ∃ older1 older2 recent,
               4 <= length recent
               ∧ conv_messages json_loads_messages c1 = Ok (older1 ++ recent)
               ∧ conv_messages json_loads_messages c2 = Ok (older2 ++ recent))
          convs1 convs2 ->
  build_memory_context json_loads_messages persona_name db1 user_id
  = build_memory_context json_loads_messages persona_name db2 user_id.
Proof.
  intros Hdb1 Hdb2 Hrel.
  assert (∃ msgss1 msgss2,
            Forall2 (fun conv msgs => conv_messages json_loads_messages conv = Ok msgs)
                    convs1 msgss1
            ∧ Forall2 (fun conv msgs => conv_messages json_loads_messages conv = Ok msgs)
                      convs2 msgss2
            ∧ map session_block msgss1 = map session_block msgss2)
    as (msgss1 & msgss2 & H1 & H2 & Hmap).
  { clear Hdb1 Hdb2.
    induction Hrel as [|c1 c2 convs1' convs2' (o1 & o2 & r & Hr & E1 & E2) _ IH].
    - exists [], []. repeat split; constructor.
    - destruct IH as (m1 & m2 & F1 & F2 & Hm).
      exists ((o1 ++ r) :: m1), ((o2 ++ r) :: m2).
      split; [by constructor|]. split; [by constructor|].
      simpl. by rewrite !session_block_recent, Hm by done. }
  rewrite (build_memory_context_blocks _ _ _ _ _ _ Hdb1 H1).
  rewrite (build_memory_context_blocks _ _ _ _ _ _ Hdb2 H2).
  rewrite Hmap. apply Forall2_length in Hrel.
  destruct convs1, convs2; simpl in Hrel; done || lia.
Qed.

Lemma memory_context_uses_recent_witness :
  build_memory_context Sample.no_json "p" MoreSamples.long_db None
  = build_memory_context Sample.no_json "p" MoreSamples.recent_db None.
Proof.
  refine (memory_context_uses_recent Sample.no_json "p" MoreSamples.long_db
            MoreSamples.recent_db None _ _ _ _ _).
  - reflexivity.
  - reflexivity.
  - constructor; [|constructor].
    exists [Sample.user_says "long ago"; Sample.assistant_says "indeed"], [],
           MoreSamples.four_messages.
    split; [simpl; lia|]. split; reflexivity.
Defined.

(** * The classification and the enhancement together *)

Section EmojiGuidance.
Import PyFacts.

(** The emoji paragraph comes first among what the enhancement appends. *)
Lemma enhance_emoji_first (base : string) (p : patterns) :
  ∃ tail,
    enhance_system_prompt_with_patterns base p
    = (if decide (emoji_usage p = "high") then
         base +:+ Py.nl +:+ Py.nl +:+
         "Emoji Usage: Use emojis frequently to express emotions and add warmth. Examples: "
         +:+ Py.join ", " (emoji_examples p)
       else if decide (emoji_usage p = "moderate") then
         base +:+ Py.nl +:+ Py.nl +:+
         "Emoji Usage: Use emojis occasionally for emphasis. Examples: "
         +:+ Py.join ", " (emoji_examples p)
       else if decide (emoji_usage p = "minimal") then
         base +:+ Py.nl +:+ Py.nl +:+
         "Emoji Usage: Use emojis sparingly or not at all. Maintain a more formal tone."
       else base) +:+ tail.
Proof.
  unfold enhance_system_prompt_with_patterns. cbv zeta.
  destruct (list_truthy (tone_patterns p)), (list_truthy (speaking_patterns p)).
  - eexists. apply sapp_assoc.
  - eexists. reflexivity.
  - eexists. reflexivity.
  - exists "". by rewrite sapp_nil_r.
Qed.

End EmojiGuidance.

(** X23: the composed prompt carries the emoji guidance that matches the
    profile.  With a high-emoji keyword it contains the sentence asking for
    frequent emojis followed by the 8 example glyphs separated by commas;
    otherwise, with a low-emoji keyword, the sentence asking for sparing use
    and a formal tone; otherwise the sentence asking for occasional emojis
    followed by the 3 example glyphs. *)
Theorem composed_prompt_emoji_guidance (P : gmap string string) :
  (keyword_present high_emoji_keywords P ->
     occurs ("Emoji Usage: Use emojis frequently to express emotions and add warmth. Examples: "
             +:+ "😊, ✨, 🎉, 💫, 🌟, ❤️, 🙌, 👍")
       (compose_system_prompt P)) ∧
  (¬ keyword_present high_emoji_keywords P ->
   keyword_present low_emoji_keywords P ->
     occurs "Emoji Usage: Use emojis sparingly or not at all. Maintain a more formal tone."
       (compose_system_prompt P)) ∧
  (¬ keyword_present high_emoji_keywords P ->
   ¬ keyword_present low_emoji_keywords P ->
     occurs ("Emoji Usage: Use emojis occasionally for emphasis. Examples: "
             +:+ "😊, 👍, ✨")
       (compose_system_prompt P)).
Proof.
  unfold compose_system_prompt. cbv zeta.
  destruct (enhance_emoji_first (generate_system_prompt P)
              (analyze_tone_and_emoji_patterns P)) as [tail ->].
  split; [|split].
  - intros Hh. destruct (emoji_high P Hh) as [-> ->].
    rewrite decide_True by done. apply occurs_app_l.
    do 3 apply occurs_app_r. exists "", "". by rewrite PyFacts.sapp_nil_r.
  - intros Hh Hl. destruct (emoji_minimal P Hh Hl) as [-> _].
    rewrite decide_False, decide_False, decide_True by done. apply occurs_app_l.
    do 3 apply occurs_app_r. exists "", "". by rewrite PyFacts.sapp_nil_r.
  - intros Hh Hl. destruct (emoji_moderate P Hh Hl) as [-> ->].
    rewrite decide_False, decide_True by done. apply occurs_app_l.
    do 3 apply occurs_app_r. exists "", "". by rewrite PyFacts.sapp_nil_r.
Qed.

Lemma composed_prompt_emoji_guidance_witness :
  occurs ("Emoji Usage: Use emojis frequently to express emotions and add warmth. Examples: "
          +:+ "😊, ✨, 🎉, 💫, 🌟, ❤️, 🙌, 👍")
    (compose_system_prompt Sample.cheerful_profile).
Proof.
  apply (proj1 (composed_prompt_emoji_guidance Sample.cheerful_profile)).
  exists "cheerful". split; [by left|]. left. by exists "", ", optimistic".
Defined.
